(** * BCP47 language registry: parser, tag index, tokenizer and tag builders

    A shallow embedding of [src/src/language/languages.cpp] (classes
    [BCP47Language], [BCP47Languages] and [LanguageParser]) together with
    the properties of the specification that concern them.

    Conventions of the embedding:
    - a [QString] is a [string]; its code units are the 8-bit characters of
      [ascii], compared by their numeric code as [QString::compare] does;
    - a [QSharedPointer<T>] is an [option T]: [None] is the null pointer.
      Records are never mutated once they are stored in a map, so the value
      stands for the object it points to;
    - dereferencing a null pointer and [QVector::at] outside the vector are
      undefined behaviour in C++: the embedding makes them the outcome
      [Aborts];
    - a [QMap<QString, _>] is a [gmap string _], a [QMultiMap] is a list of
      pairs kept in key order, most recent first among equal keys;
    - the Qt signals a slot emits are returned as a list. *)

From Stdlib Require Import ZArith NArith String Ascii List Bool Lia.
From stdpp Require Import base option gmap strings list.
Import ListNotations.

Local Open Scope string_scope.
Local Open Scope Z_scope.

(** ** Outcomes of fallible code *)

Inductive Result (A : Type) : Type :=
| Returns (a : A)
| Aborts.
Arguments Returns {A} a.
Arguments Aborts {A}.

Definition bindR {A B} (r : Result A) (k : A -> Result B) : Result B :=
  match r with
  | Returns a => k a
  | Aborts => Aborts
  end.

Declare Scope result_scope.
Delimit Scope result_scope with result.
Notation "'let*' x ':=' r 'in' k" := (bindR r (fun x => k))
  (at level 10, x name, r at level 100, k at level 200) : result_scope.
Local Open Scope result_scope.

(** [p->...] on a [QSharedPointer]: the pointee, or undefined behaviour. *)
Definition deref {A} (p : option A) : Result A :=
  match p with
  | Some a => Returns a
  | None => Aborts
  end.

(** [v.at(0)] on a [QVector]. *)
Definition at0 {A} (v : list A) : Result A :=
  match v with
  | a :: _ => Returns a
  | [] => Aborts
  end.

(** ** The operations of [QString] and [QChar] the program uses *)

Module QString.

Definition code (c : ascii) : N := N_of_ascii c.

(** [QChar::isSpace] on the characters below 256: tab, line feed,
    vertical tab, form feed, carriage return, space, NEL and the
    no-break space. *)
Definition isSpace (c : ascii) : bool :=
  let n := code c in
  ((9 <=? n) && (n <=? 13) || (n =? 32) || (n =? 133) || (n =? 160))%N.

(** [QChar::toLower] on the letters A to Z. *)
Definition toLowerChar (c : ascii) : ascii :=
  let n := code c in
  if ((65 <=? n) && (n <=? 90))%N then ascii_of_N (n + 32) else c.

Fixpoint toLower (s : string) : string :=
  match s with
  | EmptyString => EmptyString
  | String c s' => String (toLowerChar c) (toLower s')
  end.

Definition isEmpty (s : string) : bool :=
  match s with
  | EmptyString => true
  | String _ _ => false
  end.

Definition length (s : string) : Z := Z.of_nat (String.length s).

(** [s += c] *)
Definition push (s : string) (c : ascii) : string :=
  s ++ String c EmptyString.

Fixpoint contains (c : ascii) (s : string) : bool :=
  match s with
  | EmptyString => false
  | String d s' => Ascii.eqb d c || contains c s'
  end.

(** [s.split(sep)] with the default [Qt::KeepEmptyParts]. *)
Fixpoint split (sep : ascii) (s : string) : list string :=
  match s with
  | EmptyString => [EmptyString]
  | String c s' =>
      if Ascii.eqb c sep then EmptyString :: split sep s'
      else match split sep s' with
           | h :: t => String c h :: t
           | [] => [String c EmptyString]
           end
  end.

(** [s.split(sep, Qt::SkipEmptyParts)] *)
Definition splitSkipEmpty (sep : ascii) (s : string) : list string :=
  List.filter (fun p => negb (isEmpty p)) (split sep s).

Fixpoint dropSpaces (s : string) : string :=
  match s with
  | EmptyString => EmptyString
  | String c s' => if isSpace c then dropSpaces s' else s
  end.

Fixpoint reverse (acc s : string) : string :=
  match s with
  | EmptyString => acc
  | String c s' => reverse (String c acc) s'
  end.

(** [s.trimmed()] *)
Definition trimmed (s : string) : string :=
  reverse EmptyString (dropSpaces (reverse EmptyString (dropSpaces s))).

(** [s.startsWith(p, Qt::CaseInsensitive)] *)
Definition startsWithCI (p s : string) : bool :=
  String.prefix (toLower p) (toLower s).

(** [==], [<=] and [>=] of [QString] against a literal. *)
Definition eq (a b : string) : bool := String.eqb a b.
Definition le (a b : string) : bool := String.leb a b.
Definition ge (a b : string) : bool := String.leb b a.

(** [l.contains(s, Qt::CaseInsensitive)] on a list of strings. *)
Definition listContainsCI (l : list string) (s : string) : bool :=
  existsb (fun t => String.eqb (toLower t) (toLower s)) l.

(** [l.at(i)] on the result of a split whose size the caller has tested;
    the empty string stands for an index the caller never uses. *)
Definition part (l : list string) (i : nat) : string :=
  nth i l EmptyString.

End QString.

(** Modelled from the spec: [StringUtil::removeWhitespace], declared in
    [utilities/stringutil.h]; the specification says that the tokenizer
    strips all whitespace from the input first. *)
Fixpoint removeWhitespace (s : string) : string :=
  match s with
  | EmptyString => EmptyString
  | String c s' =>
      if QString.isSpace c then removeWhitespace s'
      else String c (removeWhitespace s')
  end.

(** ** [QDate]

    A date is its Julian day number; the null (invalid) date holds the
    smallest 64-bit integer, and dates compare by that number. *)

Definition QDate := Z.
Definition nullJd : QDate := - 2 ^ 63.
Definition QDate_lt (a b : QDate) : bool := a <? b.

(** ** [QMultiMap]: pairs in key order, the most recent first among equals *)

Section MultiMap.
Context {K V : Type} (ltb : K -> K -> bool).

Definition sameKey (a b : K) : bool := negb (ltb a b) && negb (ltb b a).

(** [m.insert(k, v)]: the pair goes in front of the first key that is
    not less than [k]. *)
Fixpoint mm_insert (k : K) (v : V) (m : list (K * V)) : list (K * V) :=
  match m with
  | [] => [(k, v)]
  | (k', v') :: m' =>
      if ltb k' k then (k', v') :: mm_insert k v m' else (k, v) :: m
  end.

(** [m.values(k)] *)
Definition mm_values (k : K) (m : list (K * V)) : list V :=
  List.map snd (List.filter (fun kv => sameKey (fst kv) k) m).

(** [m.uniqueKeys()] *)
Fixpoint mm_uniqueKeys (m : list (K * V)) : list K :=
  match m with
  | [] => []
  | (k, _) :: m' =>
      match m' with
      | (k', _) :: _ => if sameKey k k' then mm_uniqueKeys m'
                        else k :: mm_uniqueKeys m'
      | [] => [k]
      end
  end.

(** [m.values()] *)
Definition mm_allValues (m : list (K * V)) : list V := List.map snd m.

End MultiMap.

Definition StringMultiMap (V : Type) := list (string * V).
Definition smm_insert {V} := @mm_insert string V String.ltb.
Definition smm_values {V} := @mm_values string V String.ltb.
Definition smm_uniqueKeys {V} := @mm_uniqueKeys string V String.ltb.

(** ** [BCP47Language]: one record of the registry *)

Inductive Type_ : Set :=
| BAD_TAG | LANGUAGE | EXTLANG | SCRIPT | REGION | VARIANT
| GRANDFATHERED | REDUNDANT.

(** [BCP47Language::TagType]: the enumerators with the values the header
    gives them (several of them coincide). *)
Module TagType.
Definition NO_VALUE : Z := 0.
Definition PRIMARY_LANGUAGE : Z := 0x1.
Definition PRIVATE_LANGUAGE : Z := 0x2.
Definition NO_PRIMARY_LANGUAGE : Z := 0x1000000.
Definition EXTENDED_LANGUAGE : Z := 0x8.
Definition EXTLANG_MISMATCH : Z := 0x10.
Definition NO_EXTENDED_LANGUAGE : Z := 0x11.
Definition DUPLICATE_EXTENDED : Z := 0x20.
Definition EXTENDED_FOLLOWS_SCRIPT : Z := 0x40.
Definition EXTENDED_FOLLOWS_REGION : Z := 0x80.
Definition SCRIPT_LANGUAGE : Z := 0x100.
Definition DUPLICATE_SCRIPT : Z := 0x200.
Definition PRIVATE_SCRIPT : Z := 0x400.
Definition NO_SCRIPT : Z := 0x800.
Definition REGIONAL_LANGUAGE : Z := 0x10000.
Definition PRIVATE_REGION : Z := 0x20000.
Definition NO_REGION : Z := 0x40000.
Definition UN_STATISTICAL_REGION : Z := 0x80000.
Definition DUPLICATE_REGION : Z := 0x100000.
Definition VARIANT_LANGUAGE : Z := 0x200000.
Definition NO_VARIANT_LANGUAGE : Z := 0x400000.
Definition GRANDFATHERED_LANGUAGE : Z := 0x100000.
Definition NO_GRANDFATHERED_LANGUAGE : Z := 0x1000000.
Definition REDUNDANT_LANGUAGE : Z := 0x200000.
Definition NO_REDUNDANT_LANGUAGE : Z := 0x4000000.
Definition BAD_SPACE : Z := 0x80000000.
Definition BAD_SUBTAG : Z := 0x40000000.
Definition SUBTAG_OUT_OF_POSITION : Z := 0x80000000.
End TagType.

Record BCP47Language : Type := mkLanguage {
  m_type : Type_;
  m_subtag : string;
  m_tag : string;
  m_descriptions : list string;
  m_added : QDate;
  m_suppressScriptLang : string;
  m_macrolanguageName : string;
  m_comments : string;
  m_preferredValue : string;
  m_prefix : list string;
  m_macrolanguage : bool;
  m_collection : bool;
  m_deprecated : bool
}.

(** [BCP47Language::BCP47Language()] *)
Definition newLanguage : BCP47Language :=
  {| m_type := LANGUAGE; m_subtag := ""; m_tag := ""; m_descriptions := [];
     m_added := nullJd; m_suppressScriptLang := ""; m_macrolanguageName := "";
     m_comments := ""; m_preferredValue := ""; m_prefix := [];
     m_macrolanguage := false; m_collection := false; m_deprecated := false |}.

Definition setType (t : Type_) (l : BCP47Language) : BCP47Language :=
  mkLanguage t (m_subtag l) (m_tag l) (m_descriptions l) (m_added l)
    (m_suppressScriptLang l) (m_macrolanguageName l) (m_comments l)
    (m_preferredValue l) (m_prefix l) (m_macrolanguage l) (m_collection l)
    (m_deprecated l).

Definition setSubtag (s : string) (l : BCP47Language) : BCP47Language :=
  mkLanguage (m_type l) s (m_tag l) (m_descriptions l) (m_added l)
    (m_suppressScriptLang l) (m_macrolanguageName l) (m_comments l)
    (m_preferredValue l) (m_prefix l) (m_macrolanguage l) (m_collection l)
    (m_deprecated l).

Definition setTag (s : string) (l : BCP47Language) : BCP47Language :=
  mkLanguage (m_type l) (m_subtag l) s (m_descriptions l) (m_added l)
    (m_suppressScriptLang l) (m_macrolanguageName l) (m_comments l)
    (m_preferredValue l) (m_prefix l) (m_macrolanguage l) (m_collection l)
    (m_deprecated l).

Definition setDescriptions (d : list string) (l : BCP47Language)
  : BCP47Language :=
  mkLanguage (m_type l) (m_subtag l) (m_tag l) d (m_added l)
    (m_suppressScriptLang l) (m_macrolanguageName l) (m_comments l)
    (m_preferredValue l) (m_prefix l) (m_macrolanguage l) (m_collection l)
    (m_deprecated l).

(** [addDescription]: [m_descriptions.append(desc)] *)
Definition addDescription (desc : string) (l : BCP47Language)
  : BCP47Language :=
  setDescriptions (m_descriptions l ++ [desc]) l.

(** [appendDescription]: the text joins the last description after a line
    feed, or becomes the first description when there is none. *)
Definition appendDescription (desc : string) (l : BCP47Language)
  : BCP47Language :=
  match List.rev (m_descriptions l) with
  | [] => setDescriptions [desc] l
  | last :: front =>
      setDescriptions
        (List.rev front ++ [last ++ String "010"%char EmptyString ++ desc]) l
  end.

(** [description()]: the first description, or the empty string. *)
Definition description (l : BCP47Language) : string :=
  match m_descriptions l with
  | d :: _ => d
  | [] => ""
  end.

Definition setDateAdded (d : QDate) (l : BCP47Language) : BCP47Language :=
  mkLanguage (m_type l) (m_subtag l) (m_tag l) (m_descriptions l) d
    (m_suppressScriptLang l) (m_macrolanguageName l) (m_comments l)
    (m_preferredValue l) (m_prefix l) (m_macrolanguage l) (m_collection l)
    (m_deprecated l).

Definition setSuppressScript (s : string) (l : BCP47Language)
  : BCP47Language :=
  mkLanguage (m_type l) (m_subtag l) (m_tag l) (m_descriptions l) (m_added l)
    s (m_macrolanguageName l) (m_comments l)
    (m_preferredValue l) (m_prefix l) (m_macrolanguage l) (m_collection l)
    (m_deprecated l).

Definition setMacrolanguageName (s : string) (l : BCP47Language)
  : BCP47Language :=
  mkLanguage (m_type l) (m_subtag l) (m_tag l) (m_descriptions l) (m_added l)
    (m_suppressScriptLang l) s (m_comments l)
    (m_preferredValue l) (m_prefix l) (m_macrolanguage l) (m_collection l)
    (m_deprecated l).

Definition setComments (s : string) (l : BCP47Language) : BCP47Language :=
  mkLanguage (m_type l) (m_subtag l) (m_tag l) (m_descriptions l) (m_added l)
    (m_suppressScriptLang l) (m_macrolanguageName l) s
    (m_preferredValue l) (m_prefix l) (m_macrolanguage l) (m_collection l)
    (m_deprecated l).

(** [appendComment]: a line feed, then the text. *)
Definition appendComment (extra : string) (l : BCP47Language)
  : BCP47Language :=
  setComments (m_comments l ++ String "010"%char EmptyString ++ extra) l.

Definition setPreferredValue (s : string) (l : BCP47Language)
  : BCP47Language :=
  mkLanguage (m_type l) (m_subtag l) (m_tag l) (m_descriptions l) (m_added l)
    (m_suppressScriptLang l) (m_macrolanguageName l) (m_comments l)
    s (m_prefix l) (m_macrolanguage l) (m_collection l)
    (m_deprecated l).

(** [addPrefix]: [m_prefix.append(prefix)] *)
Definition addPrefix (p : string) (l : BCP47Language) : BCP47Language :=
  mkLanguage (m_type l) (m_subtag l) (m_tag l) (m_descriptions l) (m_added l)
    (m_suppressScriptLang l) (m_macrolanguageName l) (m_comments l)
    (m_preferredValue l) (m_prefix l ++ [p]) (m_macrolanguage l)
    (m_collection l) (m_deprecated l).

Definition setMacrolanguage (b : bool) (l : BCP47Language) : BCP47Language :=
  mkLanguage (m_type l) (m_subtag l) (m_tag l) (m_descriptions l) (m_added l)
    (m_suppressScriptLang l) (m_macrolanguageName l) (m_comments l)
    (m_preferredValue l) (m_prefix l) b (m_collection l) (m_deprecated l).

Definition setCollection (b : bool) (l : BCP47Language) : BCP47Language :=
  mkLanguage (m_type l) (m_subtag l) (m_tag l) (m_descriptions l) (m_added l)
    (m_suppressScriptLang l) (m_macrolanguageName l) (m_comments l)
    (m_preferredValue l) (m_prefix l) (m_macrolanguage l) b (m_deprecated l).

Definition setDeprecated (b : bool) (l : BCP47Language) : BCP47Language :=
  mkLanguage (m_type l) (m_subtag l) (m_tag l) (m_descriptions l) (m_added l)
    (m_suppressScriptLang l) (m_macrolanguageName l) (m_comments l)
    (m_preferredValue l) (m_prefix l) (m_macrolanguage l) (m_collection l) b.

(** ** [BCP47Languages]: the dataset and its index maps

    The maps are static members of the class; [m_fileDate] and
    [m_languageFilename] are members of the object. *)

Record BCP47Languages : Type := mkLanguages {
  m_datasetByDescription : StringMultiMap BCP47Language;
  m_languageByDescription : gmap string BCP47Language;
  m_languageBySubtag : gmap string BCP47Language;
  m_extlangByDescription : gmap string BCP47Language;
  m_extlangBySubtag : gmap string BCP47Language;
  m_regionByDescription : gmap string BCP47Language;
  m_regionBySubtag : gmap string BCP47Language;
  m_scriptByDescription : gmap string BCP47Language;
  m_scriptBySubtag : gmap string BCP47Language;
  m_variantByDescription : gmap string BCP47Language;
  m_variantBySubtag : gmap string BCP47Language;
  m_grandfatheredByDescription : StringMultiMap BCP47Language;
  m_grandfatheredByTag : gmap string BCP47Language;
  m_redundantByDescription : gmap string BCP47Language;
  m_redundantByTag : gmap string BCP47Language;
  m_fileDate : QDate;
  m_languageFilename : string
}.

(** The state of a freshly constructed object before any data is loaded. *)
Definition emptyLanguages : BCP47Languages :=
  mkLanguages [] ∅ ∅ ∅ ∅ ∅ ∅ ∅ ∅ ∅ ∅ [] ∅ ∅ ∅ nullJd "".

(** [addLanguage]: [m_datasetByDescription.insert(description, language)] *)
Definition addLanguage (desc : string) (l : BCP47Language)
  (s : BCP47Languages) : BCP47Languages :=
  mkLanguages (smm_insert desc l (m_datasetByDescription s))
    (m_languageByDescription s) (m_languageBySubtag s)
    (m_extlangByDescription s) (m_extlangBySubtag s)
    (m_regionByDescription s) (m_regionBySubtag s)
    (m_scriptByDescription s) (m_scriptBySubtag s)
    (m_variantByDescription s) (m_variantBySubtag s)
    (m_grandfatheredByDescription s) (m_grandfatheredByTag s)
    (m_redundantByDescription s) (m_redundantByTag s)
    (m_fileDate s) (m_languageFilename s).

(** The first statements of [updateMaps]: the seven maps keyed by subtag or
    tag are cleared; the maps keyed by description are not. *)
Definition clearSubtagMaps (s : BCP47Languages) : BCP47Languages :=
  mkLanguages (m_datasetByDescription s)
    (m_languageByDescription s) ∅
    (m_extlangByDescription s) ∅
    (m_regionByDescription s) ∅
    (m_scriptByDescription s) ∅
    (m_variantByDescription s) ∅
    (m_grandfatheredByDescription s) ∅
    (m_redundantByDescription s) ∅
    (m_fileDate s) (m_languageFilename s).

(** The body of the inner loop of [updateMaps]: the [switch] on the type of
    one record found under one description. *)
Definition indexOne (desc : string) (l : BCP47Language)
  (s : BCP47Languages) : BCP47Languages :=
  let subtag := m_subtag l in
  let tag := m_tag l in
  match m_type l with
  | LANGUAGE =>
      mkLanguages (m_datasetByDescription s)
        (<[desc := l]> (m_languageByDescription s))
        (<[subtag := l]> (m_languageBySubtag s))
        (m_extlangByDescription s) (m_extlangBySubtag s)
        (m_regionByDescription s) (m_regionBySubtag s)
        (m_scriptByDescription s) (m_scriptBySubtag s)
        (m_variantByDescription s) (m_variantBySubtag s)
        (m_grandfatheredByDescription s) (m_grandfatheredByTag s)
        (m_redundantByDescription s) (m_redundantByTag s)
        (m_fileDate s) (m_languageFilename s)
  | EXTLANG =>
      mkLanguages (m_datasetByDescription s)
        (m_languageByDescription s) (m_languageBySubtag s)
        (<[desc := l]> (m_extlangByDescription s))
        (<[subtag := l]> (m_extlangBySubtag s))
        (m_regionByDescription s) (m_regionBySubtag s)
        (m_scriptByDescription s) (m_scriptBySubtag s)
        (m_variantByDescription s) (m_variantBySubtag s)
        (m_grandfatheredByDescription s) (m_grandfatheredByTag s)
        (m_redundantByDescription s) (m_redundantByTag s)
        (m_fileDate s) (m_languageFilename s)
  | REGION =>
      mkLanguages (m_datasetByDescription s)
        (m_languageByDescription s) (m_languageBySubtag s)
        (m_extlangByDescription s) (m_extlangBySubtag s)
        (<[desc := l]> (m_regionByDescription s))
        (<[subtag := l]> (m_regionBySubtag s))
        (m_scriptByDescription s) (m_scriptBySubtag s)
        (m_variantByDescription s) (m_variantBySubtag s)
        (m_grandfatheredByDescription s) (m_grandfatheredByTag s)
        (m_redundantByDescription s) (m_redundantByTag s)
        (m_fileDate s) (m_languageFilename s)
  | SCRIPT =>
      mkLanguages (m_datasetByDescription s)
        (m_languageByDescription s) (m_languageBySubtag s)
        (m_extlangByDescription s) (m_extlangBySubtag s)
        (m_regionByDescription s) (m_regionBySubtag s)
        (<[desc := l]> (m_scriptByDescription s))
        (<[subtag := l]> (m_scriptBySubtag s))
        (m_variantByDescription s) (m_variantBySubtag s)
        (m_grandfatheredByDescription s) (m_grandfatheredByTag s)
        (m_redundantByDescription s) (m_redundantByTag s)
        (m_fileDate s) (m_languageFilename s)
  | VARIANT =>
      mkLanguages (m_datasetByDescription s)
        (m_languageByDescription s) (m_languageBySubtag s)
        (m_extlangByDescription s) (m_extlangBySubtag s)
        (m_regionByDescription s) (m_regionBySubtag s)
        (m_scriptByDescription s) (m_scriptBySubtag s)
        (<[desc := l]> (m_variantByDescription s))
        (<[subtag := l]> (m_variantBySubtag s))
        (m_grandfatheredByDescription s) (m_grandfatheredByTag s)
        (m_redundantByDescription s) (m_redundantByTag s)
        (m_fileDate s) (m_languageFilename s)
  | GRANDFATHERED =>
      mkLanguages (m_datasetByDescription s)
        (m_languageByDescription s) (m_languageBySubtag s)
        (m_extlangByDescription s) (m_extlangBySubtag s)
        (m_regionByDescription s) (m_regionBySubtag s)
        (m_scriptByDescription s) (m_scriptBySubtag s)
        (m_variantByDescription s) (m_variantBySubtag s)
        (smm_insert desc l (m_grandfatheredByDescription s))
        (<[tag := l]> (m_grandfatheredByTag s))
        (m_redundantByDescription s) (m_redundantByTag s)
        (m_fileDate s) (m_languageFilename s)
  | REDUNDANT =>
      mkLanguages (m_datasetByDescription s)
        (m_languageByDescription s) (m_languageBySubtag s)
        (m_extlangByDescription s) (m_extlangBySubtag s)
        (m_regionByDescription s) (m_regionBySubtag s)
        (m_scriptByDescription s) (m_scriptBySubtag s)
        (m_variantByDescription s) (m_variantBySubtag s)
        (m_grandfatheredByDescription s) (m_grandfatheredByTag s)
        (<[desc := l]> (m_redundantByDescription s))
        (<[tag := l]> (m_redundantByTag s))
        (m_fileDate s) (m_languageFilename s)
  | BAD_TAG => s
  end.

(** [updateMaps]: for each unique description, in key order, and each
    record it maps to, the most recent first, [indexOne]. *)
Definition updateMaps (s : BCP47Languages) : BCP47Languages :=
  let dataset := m_datasetByDescription s in
  fold_left
    (fun acc desc =>
       fold_left (fun acc' l => indexOne desc l acc')
         (smm_values desc dataset) acc)
    (smm_uniqueKeys dataset) (clearSubtagMaps s).

(** The part of [loadYamlFile] that follows the decoding of the YAML
    document: the file date is taken, every record is added under each of
    its descriptions, and the maps are updated. *)
Definition loadRecords (fileDate : option QDate)
  (records : list BCP47Language) (s : BCP47Languages) : BCP47Languages :=
  let s1 :=
    match fileDate with
    | Some d =>
        mkLanguages (m_datasetByDescription s)
          (m_languageByDescription s) (m_languageBySubtag s)
          (m_extlangByDescription s) (m_extlangBySubtag s)
          (m_regionByDescription s) (m_regionBySubtag s)
          (m_scriptByDescription s) (m_scriptBySubtag s)
          (m_variantByDescription s) (m_variantBySubtag s)
          (m_grandfatheredByDescription s) (m_grandfatheredByTag s)
          (m_redundantByDescription s) (m_redundantByTag s)
          d (m_languageFilename s)
    | None => s
    end in
  updateMaps
    (fold_left
       (fun acc l =>
          fold_left (fun acc' d => addLanguage d l acc') (m_descriptions l) acc)
       records s1).

(** *** Membership predicates: [m.keys().contains(subtag)] *)

Definition hasKey (m : gmap string BCP47Language) (k : string) : bool :=
  match m !! k with
  | Some _ => true
  | None => false
  end.

Definition isPrimaryLanguage (s : BCP47Languages) (subtag : string) : bool :=
  hasKey (m_languageBySubtag s) subtag.
Definition isExtLang (s : BCP47Languages) (subtag : string) : bool :=
  hasKey (m_extlangBySubtag s) subtag.
Definition isVariant (s : BCP47Languages) (subtag : string) : bool :=
  hasKey (m_variantBySubtag s) subtag.
Definition isRegion (s : BCP47Languages) (subtag : string) : bool :=
  hasKey (m_regionBySubtag s) subtag.
Definition isScript (s : BCP47Languages) (subtag : string) : bool :=
  hasKey (m_scriptBySubtag s) subtag.
Definition isGrandfathered (s : BCP47Languages) (subtag : string) : bool :=
  hasKey (m_grandfatheredByTag s) subtag.
Definition isRedundant (s : BCP47Languages) (subtag : string) : bool :=
  hasKey (m_redundantByTag s) subtag.

(** *** Lookups: [m.value(key)], null when the key is absent *)

Definition languageFromDescription (s : BCP47Languages) (d : string) :=
  m_languageByDescription s !! d.
Definition extlangFromDescription (s : BCP47Languages) (d : string) :=
  m_extlangByDescription s !! d.
Definition variantFromDescription (s : BCP47Languages) (d : string) :=
  m_variantByDescription s !! d.
Definition regionFromDescription (s : BCP47Languages) (d : string) :=
  m_regionByDescription s !! d.
Definition scriptFromDescription (s : BCP47Languages) (d : string) :=
  m_scriptByDescription s !! d.
Definition redundantFromDescription (s : BCP47Languages) (d : string) :=
  m_redundantByDescription s !! d.
(** [QMultiMap::value]: the most recently inserted record of the key. *)
Definition grandfatheredFromDescription (s : BCP47Languages) (d : string) :=
  head (smm_values d (m_grandfatheredByDescription s)).
Definition fromDescription (s : BCP47Languages) (d : string) :=
  smm_values d (m_datasetByDescription s).
Definition languageFromSubtag (s : BCP47Languages) (t : string) :=
  m_languageBySubtag s !! t.
Definition extlangFromSubtag (s : BCP47Languages) (t : string) :=
  m_extlangBySubtag s !! t.
Definition variantFromSubtag (s : BCP47Languages) (t : string) :=
  m_variantBySubtag s !! t.
Definition regionFromSubtag (s : BCP47Languages) (t : string) :=
  m_regionBySubtag s !! t.
Definition scriptFromSubtag (s : BCP47Languages) (t : string) :=
  m_scriptBySubtag s !! t.
Definition redundantFromTag (s : BCP47Languages) (t : string) :=
  m_redundantByTag s !! t.
Definition grandfatheredFromTag (s : BCP47Languages) (t : string) :=
  m_grandfatheredByTag s !! t.

(** ** Classification of one subtag *)

Definition checkPrimaryLanguage (s : BCP47Languages) (value : string) : Z :=
  if QString.eq value "i" || QString.eq value "x"
     || (QString.ge value "qaa" && QString.le value "qtz")
  then TagType.PRIVATE_LANGUAGE
  else if isPrimaryLanguage s value then TagType.PRIMARY_LANGUAGE
  else TagType.NO_PRIMARY_LANGUAGE.

Definition checkExtendedlanguage (s : BCP47Languages) (value : string) : Z :=
  if isExtLang s value then TagType.EXTENDED_LANGUAGE
  else TagType.NO_EXTENDED_LANGUAGE.

Definition checkScript (s : BCP47Languages) (value : string) : Z :=
  if isScript s value then TagType.SCRIPT_LANGUAGE
  else if QString.ge value "Qaaa" && QString.le value "Qabx"
  then TagType.PRIVATE_SCRIPT
  else TagType.NO_SCRIPT.

Definition checkRegion (s : BCP47Languages) (value : string) : Z :=
  if isRegion s value then TagType.REGIONAL_LANGUAGE
  else if QString.eq value "AA"
          || (QString.ge value "QM" && QString.le value "QZ")
          || (QString.ge value "XA" && QString.le value "XZ")
          || QString.eq value "ZZ"
  then TagType.PRIVATE_REGION
  else TagType.NO_REGION.

Definition checkVariant (s : BCP47Languages) (value : string) : Z :=
  if isVariant s value then TagType.VARIANT_LANGUAGE
  else TagType.NO_VARIANT_LANGUAGE.

Definition checkGrandfathered (s : BCP47Languages) (value : string) : Z :=
  if isGrandfathered s value then TagType.GRANDFATHERED_LANGUAGE
  else TagType.NO_GRANDFATHERED_LANGUAGE.

Definition checkRedundant (s : BCP47Languages) (value : string) : Z :=
  if isVariant s value then TagType.REDUNDANT_LANGUAGE
  else TagType.NO_REDUNDANT_LANGUAGE.

(** ** [testTag]: the tokenizer *)

Record TagTestResult : Type := mkResult {
  type : Z;
  start : Z;
  length : Z;
  text : string
}.

(** [new BCP47Language::TagTestResult()]: every member is zero or empty. *)
Definition newResult : TagTestResult := mkResult 0 0 0 "".

(** [result->start = i] *)
Definition setStart (i : Z) (r : TagTestResult) : TagTestResult :=
  mkResult (type r) i (length r) (text r).

(** The variables of [testTag] that live across iterations of its loop:
    [subvalue], the pointer [result] and the vector [results]. *)
Record Scan : Type := mkScan {
  subvalue : string;
  result : option TagTestResult;
  results : list TagTestResult
}.

(** The four branches that accept a candidate: type, text and length are
    written through [result], the token is appended, the pointer cleared. *)
Definition accept (ty : Z) (sc : Scan) : Result Scan :=
  let* r := deref (result sc) in
  Returns (mkScan (subvalue sc) None
             (results sc ++
                [mkResult ty (start r) (QString.length (subvalue sc))
                   (subvalue sc)])).

(** The last branch: length and type are written, the text is not. *)
Definition reject (sc : Scan) : Result Scan :=
  let* r := deref (result sc) in
  Returns (mkScan (subvalue sc) None
             (results sc ++
                [mkResult TagType.BAD_SUBTAG (start r)
                   (QString.length (subvalue sc)) (text r)])).

(** The body of [if (c == '-' || pos == testValue.length())]. *)
Definition closeCandidate (s : BCP47Languages) (sc : Scan) : Result Scan :=
  let ty := checkPrimaryLanguage s (subvalue sc) in
  if negb (ty =? TagType.NO_PRIMARY_LANGUAGE) then accept ty sc else
  let ty := checkExtendedlanguage s (subvalue sc) in
  if negb (ty =? TagType.NO_EXTENDED_LANGUAGE) then accept ty sc else
  let ty := checkScript s (subvalue sc) in
  if negb (ty =? TagType.NO_SCRIPT) then accept ty sc else
  let ty := checkRegion s (subvalue sc) in
  if negb (ty =? TagType.NO_REGION) then accept ty sc else
  reject sc.

Definition dash : ascii := "-"%char.

(** The loop of [testTag] from index [i] on; [rest] holds the characters
    of [testValue] from [i], [len] is [testValue.length()]. *)
Fixpoint testTagLoop (s : BCP47Languages) (len i : Z) (rest : string)
  (sc : Scan) : Result Scan :=
  match rest with
  | EmptyString => Returns sc
  | String c rest' =>
      let pos := i + 1 in
      let sc1 :=
        if negb (Ascii.eqb c dash) && (pos <=? len) then
          mkScan (QString.push (subvalue sc) c)
            (match result sc with
             | None => Some (setStart i newResult)
             | Some r => Some r
             end)
            (results sc)
        else sc in
      if Ascii.eqb c dash || (pos =? len) then
        let* sc2 := closeCandidate s sc1 in
        testTagLoop s len (i + 1) rest' sc2
      else testTagLoop s len (i + 1) rest' sc1
  end.

Definition testTag (s : BCP47Languages) (tag : string)
  : Result (list TagTestResult) :=
  let testValue := removeWhitespace tag in
  let* sc := testTagLoop s (QString.length testValue) 0 testValue
               (mkScan "" None []) in
  Returns (match result sc with
           | Some r => (results sc ++ [r])%list
           | None => results sc
           end).

(** ** The tag builders *)

Definition languageTag (s : BCP47Languages) (languageName regionName : string)
  : Result string :=
  let tag := m_languageBySubtag s !! languageName in
  if QString.isEmpty regionName then
    match tag with
    | Some t => Returns (m_subtag t)
    | None => Returns ""
    end
  else
    let regTag := m_regionBySubtag s !! regionName in
    match tag, regTag with
    | Some t, Some r => Returns (m_subtag t ++ "-" ++ m_subtag r)
    | _, _ => Returns ""
    end.

Definition isNull {A} (p : option A) : bool :=
  match p with
  | Some _ => false
  | None => true
  end.

Definition scriptTag (s : BCP47Languages) (languageName scriptName : string)
  : Result string :=
  let tags := m_languageBySubtag s !! languageName in
  let scriptTag := m_scriptBySubtag s !! scriptName in
  if negb (isNull tags) || negb (isNull scriptTag) then
    let* t := deref tags in
    let* p := at0 (m_prefix t) in
    let* sc := deref scriptTag in
    Returns (p ++ "-" ++ m_subtag sc ++ "-" ++ m_subtag t)
  else Returns "".

Definition variantTag (s : BCP47Languages) (scriptName region : string)
  : Result string :=
  let tags := m_variantBySubtag s !! scriptName in
  if QString.isEmpty region then
    if negb (isNull tags) then
      let* t := deref tags in
      let* p := at0 (m_prefix t) in
      Returns (p ++ "-" ++ m_subtag t)
    else Returns ""
  else
    let regTag := m_regionBySubtag s !! region in
    if negb (isNull tags) || negb (isNull regTag) then
      let* t := deref tags in
      let* p := at0 (m_prefix t) in
      let* r := deref regTag in
      Returns (p ++ "-" ++ m_subtag r ++ "-" ++ m_subtag t)
    else Returns "".

Definition extLangTag (s : BCP47Languages) (extlanName : string)
  : Result string :=
  let langTag := m_languageBySubtag s !! extlanName in
  let* t := deref langTag in
  let* p := at0 (m_prefix t) in
  Returns (p ++ "-" ++ m_preferredValue t).

(** ** [iainFileParsed]: a parsed registry arrives *)

Inductive Signal : Type :=
| SendMessage_LanguageFileUpdated (date : QDate)
| Error_RegistryHadErrors.

(** What the slot does beyond its own members: the file it writes through
    [saveToLocalFile] and the signals it emits. *)
Inductive Effect : Type :=
| SaveToLocalFile (filename : string) (saved : BCP47Languages)
| Emit (sig : Signal).

Definition iainFileParsed (s : BCP47Languages)
  (languages : StringMultiMap BCP47Language) (fileDate : QDate)
  (noErrors : bool) : BCP47Languages * list Effect :=
  if QDate_lt (m_fileDate s) fileDate then
    if noErrors then
      let s' :=
        mkLanguages languages
          (m_languageByDescription s) (m_languageBySubtag s)
          (m_extlangByDescription s) (m_extlangBySubtag s)
          (m_regionByDescription s) (m_regionBySubtag s)
          (m_scriptByDescription s) (m_scriptBySubtag s)
          (m_variantByDescription s) (m_variantBySubtag s)
          (m_grandfatheredByDescription s) (m_grandfatheredByTag s)
          (m_redundantByDescription s) (m_redundantByTag s)
          fileDate (m_languageFilename s) in
      (s', [SaveToLocalFile (m_languageFilename s') s';
            Emit (SendMessage_LanguageFileUpdated (m_fileDate s'))])
    else (s, [Emit Error_RegistryHadErrors])
  else (s, []).

(** ** [LanguageParser]: the registry text *)

(** [BCP47Languages::State], which the parser uses for its own state. *)
Inductive State : Set := UNKNOWN | STARTED | FINISHED | DESCRIPTION | COMMENT.

Definition State_eqb (a b : State) : bool :=
  match a, b with
  | UNKNOWN, UNKNOWN | STARTED, STARTED | FINISHED, FINISHED
  | DESCRIPTION, DESCRIPTION | COMMENT, COMMENT => true
  | _, _ => false
  end.

(** [LanguageParser::Error], combined with [|] into [Errors]. *)
Module Error.
Definition NO_ERROR : Z := 0.
Definition BAD_FILE_DATE : Z := 1.
Definition EMPTY_NAME : Z := 2.
Definition EMPTY_VALUE : Z := 4.
Definition UNKNOWN_TAG_TYPE : Z := 8.
End Error.

(** [BCP47Languages::TAGTYPES] *)
Definition TAGTYPES : list string :=
  ["type"; "tag"; "subtag"; "description"; "added"; "suppress-script";
   "prefix"; "macrolanguage"; "deprecated"; "preferred-value"; "scope";
   "comments"].

Definition isType (name : string) : bool :=
  QString.listContainsCI TAGTYPES name.

(** The local variables of [parse] and the member [m_lineNumber]. The
    locals [name] and [value] are cleared before each use and so belong to
    the handling of one line. *)
Record Parser : Type := mkParser {
  line : string;
  state : State;
  dateFound : bool;
  language : option BCP47Language;
  count : Z;
  languageMap : StringMultiMap BCP47Language;
  errors : list (Z * Z);
  fileDate : QDate;
  m_lineNumber : Z
}.

(** The parser as [parse] finds it on its first call. *)
Definition newParser : Parser :=
  mkParser "" UNKNOWN false None 0 [] [] nullJd 0.

Definition setLine (v : string) (p : Parser) : Parser :=
  mkParser v (state p) (dateFound p) (language p) (count p) (languageMap p)
    (errors p) (fileDate p) (m_lineNumber p).
Definition setState (v : State) (p : Parser) : Parser :=
  mkParser (line p) v (dateFound p) (language p) (count p) (languageMap p)
    (errors p) (fileDate p) (m_lineNumber p).
Definition setDateFound (v : bool) (p : Parser) : Parser :=
  mkParser (line p) (state p) v (language p) (count p) (languageMap p)
    (errors p) (fileDate p) (m_lineNumber p).
Definition setLanguage (v : option BCP47Language) (p : Parser) : Parser :=
  mkParser (line p) (state p) (dateFound p) v (count p) (languageMap p)
    (errors p) (fileDate p) (m_lineNumber p).
Definition setCount (v : Z) (p : Parser) : Parser :=
  mkParser (line p) (state p) (dateFound p) (language p) v (languageMap p)
    (errors p) (fileDate p) (m_lineNumber p).
Definition setLanguageMap (v : StringMultiMap BCP47Language) (p : Parser)
  : Parser :=
  mkParser (line p) (state p) (dateFound p) (language p) (count p) v
    (errors p) (fileDate p) (m_lineNumber p).
Definition setFileDate (v : QDate) (p : Parser) : Parser :=
  mkParser (line p) (state p) (dateFound p) (language p) (count p)
    (languageMap p) (errors p) v (m_lineNumber p).
Definition setLineNumber (v : Z) (p : Parser) : Parser :=
  mkParser (line p) (state p) (dateFound p) (language p) (count p)
    (languageMap p) (errors p) (fileDate p) v.

(** [errors.insert(m_lineNumber, e)] *)
Definition insertError (e : Z) (p : Parser) : Parser :=
  mkParser (line p) (state p) (dateFound p) (language p) (count p)
    (languageMap p) (mm_insert Z.ltb (m_lineNumber p) e (errors p))
    (fileDate p) (m_lineNumber p).

(** [line.clear()] *)
Definition clearLine (p : Parser) : Parser := setLine "" p.

(** [if (language) language->f(...)] *)
Definition onLanguage (f : BCP47Language -> BCP47Language) (p : Parser)
  : Parser :=
  match language p with
  | Some l => setLanguage (Some (f l)) p
  | None => p
  end.

(** [for (auto& description : language->descriptions())
       languageMap.insert(description, language);] *)
Definition foldRecord (l : BCP47Language)
  (m : StringMultiMap BCP47Language) : StringMultiMap BCP47Language :=
  fold_left (fun acc d => smm_insert d l acc) (m_descriptions l) m.

(** The chain of comparisons of the value of a [type] field. *)
Definition typeOfValue (lValue : string) : option Type_ :=
  if QString.eq lValue "language" then Some LANGUAGE
  else if QString.eq lValue "extlang" then Some EXTLANG
  else if QString.eq lValue "script" then Some SCRIPT
  else if QString.eq lValue "region" then Some REGION
  else if QString.eq lValue "variant" then Some VARIANT
  else if QString.eq lValue "grandfathered" then Some GRANDFATHERED
  else if QString.eq lValue "redundant" then Some REDUNDANT
  else None.

Definition colon : ascii := ":"%char.
Definition newline : ascii := "010"%char.

Section Parse.

(** [QDate::fromString(s, Qt::ISODate)], a function of Qt: the Julian
    day of the date [s] denotes, [nullJd] when it denotes none. *)
Variable fromStringISODate : string -> QDate.

(** The two places where a line that is no field runs over into the
    description or the comment of the current record. *)
Definition continuation (p : Parser) : Result Parser :=
  match state p with
  | DESCRIPTION =>
      let* l := deref (language p) in
      Returns (clearLine (setLanguage (Some (appendDescription (line p) l)) p))
  | COMMENT =>
      let* l := deref (language p) in
      Returns (clearLine (setLanguage (Some (appendComment (line p) l)) p))
  | _ => Returns (clearLine p)
  end.

(** The body of [if (size == 2 && nameIsType)]: [lName] is the lower-case
    name of the field, [value] its value. *)
Definition applyField (lName value : string) (p : Parser) : Result Parser :=
  let lValue := QString.toLower value in
  if QString.eq lName "type" then
    match typeOfValue lValue with
    | Some t =>
        let* l := deref (language p) in
        Returns (clearLine (setLanguage (Some (setType t l)) p))
    | None => Returns (clearLine (insertError Error.UNKNOWN_TAG_TYPE p))
    end
  else if QString.eq lName "tag" then
    Returns (clearLine (onLanguage (setTag value) p))
  else if QString.eq lName "subtag" then
    Returns (clearLine (onLanguage (setSubtag value) p))
  else if QString.eq lName "description" then
    Returns (clearLine
               match language p with
               | Some l =>
                   setState DESCRIPTION
                     (setCount (count p + 1)
                        (setLanguage (Some (addDescription value l)) p))
               | None => p
               end)
  else if QString.eq lName "added" then
    Returns (clearLine (onLanguage (setDateAdded (fromStringISODate value)) p))
  else if QString.eq lName "suppress-script" then
    Returns (clearLine (onLanguage (setSuppressScript value) p))
  else if QString.eq lName "prefix" then
    Returns (clearLine (onLanguage (addPrefix value) p))
  else if QString.eq lName "macrolanguage" then
    Returns (clearLine (onLanguage (setMacrolanguageName value) p))
  else if QString.eq lName "deprecated" then
    Returns (clearLine (onLanguage (setDeprecated true) p))
  else if QString.eq lName "preferred-value" then
    Returns (clearLine (onLanguage (setPreferredValue value) p))
  else if QString.eq lName "scope" then
    Returns (clearLine
               (if QString.eq value "macrolanguge" then
                  onLanguage (setMacrolanguage true) p
                else if QString.eq value "collection" then
                  onLanguage (setCollection true) p
                else p))
  else if QString.eq lName "comments" then
    Returns (clearLine
               match language p with
               | Some l =>
                   setState COMMENT (setLanguage (Some (setComments value l)) p)
               | None => p
               end)
  else Returns (insertError Error.UNKNOWN_TAG_TYPE p).

(** What follows the split of a line once [size] is 2: a recognised field
    is applied, anything else runs over. *)
Definition dispatch (nameIsType : bool) (splits : list string)
  (value : string) (p : Parser) : Result Parser :=
  if nameIsType then
    applyField
      (QString.toLower
         (QString.toLower (QString.trimmed (QString.part splits 0))))
      value p
  else continuation p.

(** [value += (":" + splits.at(i))] from index [i] to the last part. *)
Definition reassemble (value : string) (parts : list string) : string :=
  fold_left (fun v s => v ++ String colon EmptyString ++ s) parts value.

(** The branch [else if (line.contains(":"))]. *)
Definition fieldLine (p : Parser) : Result Parser :=
  let splits := QString.splitSkipEmpty colon (line p) in
  match splits with
  | [] =>
      Returns (insertError (Z.lor Error.EMPTY_NAME Error.EMPTY_VALUE) p)
  | [_] => dispatch false splits (line p) p
  | [s0; s1] =>
      let name := QString.trimmed s0 in
      let nameIsType := isType name in
      let value := QString.trimmed s1 in
      let e :=
        if negb (State_eqb (state p) COMMENT) then
          Z.lor (if negb nameIsType then Error.UNKNOWN_TAG_TYPE
                 else Error.NO_ERROR)
                (if QString.isEmpty value then Error.EMPTY_VALUE
                 else Error.NO_ERROR)
        else Error.NO_ERROR in
      let p1 :=
        if negb (e =? Error.NO_ERROR) then insertError Error.EMPTY_NAME p
        else p in
      dispatch nameIsType splits value p1
  | s0 :: s1 :: _ =>
      let name := QString.trimmed s0 in
      let nameIsType := isType name in
      let value :=
        if nameIsType then reassemble name (skipn 1 splits)
        else reassemble s1 (skipn 2 splits) in
      dispatch nameIsType splits (QString.trimmed value) p
  end.

(** The branch [if (line == "%%")]. *)
Definition separator (p : Parser) : Parser :=
  let p1 :=
    match language p with
    | Some l =>
        setState FINISHED
          (setLanguage None (setLanguageMap (foldRecord l (languageMap p)) p))
    | None => p
    end in
  let p2 :=
    if negb (State_eqb (state p1) STARTED) then
      setLanguage (Some newLanguage) (setState STARTED p1)
    else p1 in
  clearLine p2.

(** The branch [if (!dateFound)]. *)
Definition awaitDate (p : Parser) : Parser :=
  if QString.startsWithCI "file-date" (line p) then
    let splits := QString.split colon (line p) in
    if (List.length splits =? 2)%nat then
      let dateStr := QString.trimmed (QString.part splits 1) in
      clearLine (setDateFound true (setFileDate (fromStringISODate dateStr) p))
    else p
  else insertError Error.BAD_FILE_DATE p.

(** The body of [if (c == '\n')]. *)
Definition endOfLine (p : Parser) : Result Parser :=
  let p := setLineNumber (m_lineNumber p + 1) p in
  if negb (dateFound p) then Returns (awaitDate p)
  else if QString.eq (line p) "%%" then Returns (separator p)
  else if QString.contains colon (line p) then fieldLine p
  else continuation p.

(** One iteration of [for (auto& c : m_data)]. *)
Definition step (c : ascii) (p : Parser) : Result Parser :=
  if Ascii.eqb c newline then endOfLine p
  else Returns (setLine (QString.push (line p) c) p).

Fixpoint run (data : string) (p : Parser) : Result Parser :=
  match data with
  | EmptyString => Returns p
  | String c data' => let* p' := step c p in run data' p'
  end.

(** The statements after the loop: a record still open is stored. *)
Definition finish (p : Parser) : Parser :=
  match language p with
  | Some l =>
      setLanguage None (setLanguageMap (foldRecord l (languageMap p)) p)
  | None => p
  end.

(** The arguments of the signals [parse] emits: [parseCompleted] carries
    the map, the file date and [errors.isEmpty()]; [parsingErrors], sent
    when there are errors, carries them. *)
Record Parsed : Type := mkParsed {
  parsedLanguages : StringMultiMap BCP47Language;
  parsedFileDate : QDate;
  parsedNoErrors : bool;
  parsedErrors : list (Z * Z)
}.

Definition isNil {A} (l : list A) : bool :=
  match l with
  | [] => true
  | _ :: _ => false
  end.

(** [parse] on a parser whose data has been set to [data]. *)
Definition parseFrom (p0 : Parser) (data : string) : Result Parsed :=
  let* p := run data p0 in
  let p' := finish p in
  Returns (mkParsed (languageMap p') (fileDate p') (isNil (errors p'))
             (errors p')).

Definition parse (data : string) : Result Parsed := parseFrom newParser data.

End Parse.

(** ** More of [BCP47Language] and [BCP47Languages] *)

(** [BCP47Language::fromString] *)
Definition fromString (name : string) : Type_ :=
  if QString.eq (QString.toLower name) "language" then LANGUAGE
  else if QString.eq (QString.toLower name) "extlang" then EXTLANG
  else if QString.eq (QString.toLower name) "script" then SCRIPT
  else if QString.eq (QString.toLower name) "region" then REGION
  else if QString.eq (QString.toLower name) "variant" then VARIANT
  else if QString.eq (QString.toLower name) "grandfathered" then GRANDFATHERED
  else if QString.eq (QString.toLower name) "redundant" then REDUNDANT
  else BAD_TAG.

(** [BCP47Language::typeString]; the null string of the default case is
    the empty string. *)
Definition typeString (l : BCP47Language) : string :=
  match m_type l with
  | LANGUAGE => "language"
  | EXTLANG => "extlang"
  | SCRIPT => "script"
  | REGION => "region"
  | VARIANT => "variant"
  | GRANDFATHERED => "grandfathered"
  | REDUNDANT => "redundant"
  | BAD_TAG => ""
  end.

(** [BCP47Languages::typeFromString] *)
Definition typeFromString (s : BCP47Languages) (value : string) : Type_ :=
  if isPrimaryLanguage s value then LANGUAGE
  else if isExtLang s value then EXTLANG
  else if isVariant s value then VARIANT
  else if isRegion s value then REGION
  else if isScript s value then SCRIPT
  else if isGrandfathered s value then GRANDFATHERED
  else if isRedundant s value then REDUNDANT
  else BAD_TAG.

(** The pairs of a [QMap] in the order of its keys, as its iterators and
    [values()] go through them. *)
Definition qmapPairs {V} (m : gmap string V) : list (string * V) :=
  foldr (fun kv acc => smm_insert (fst kv) (snd kv) acc) [] (map_to_list m).

(** [m.values()] of a [QMap] *)
Definition qmapValues {V} (m : gmap string V) : list V :=
  List.map snd (qmapPairs m).

(** The loop that [extlangsWithPrefix] and [variantsWithPrefix] share: the
    first description of every record whose prefixes contain [subtag]. The
    records of a map are never null. *)
Definition descriptionsWithPrefix (subtag : string)
  (values : list BCP47Language) : list string :=
  List.map description
    (List.filter
       (fun l => existsb (fun p => QString.eq p subtag) (m_prefix l))
       values).

Definition extlangsWithPrefix (s : BCP47Languages) (subtag : string)
  : list string :=
  descriptionsWithPrefix subtag (qmapValues (m_extlangBySubtag s)).

Definition variantsWithPrefix (s : BCP47Languages) (subtag : string)
  : list string :=
  descriptionsWithPrefix subtag (qmapValues (m_variantBySubtag s)).

(** [getUniqueLanguages] compares the pointers and not the records, so it
    is given over any type [P] of pointers with a decidable equality:
    [dataset] is [m_datasetByDescription] as a map to pointers. *)
Definition getUniqueLanguages {P} `{EqDecision P}
  (dataset : StringMultiMap P) : list P :=
  fold_left
    (fun uniqueLanguages l =>
       if bool_decide (l ∈ uniqueLanguages) then uniqueLanguages
       else (uniqueLanguages ++ [l])%list)
    (mm_allValues dataset) [].

(** ** An instance of the date reader for the examples

    Dates written [yyyy-MM-dd] with a valid month and day give their
    Julian day number; every other string gives the null date. *)

Module IsoDate.

Fixpoint number (s : string) (acc : Z) : option Z :=
  match s with
  | EmptyString => Some acc
  | String c s' =>
      let n := Z.of_N (QString.code c) in
      if (48 <=? n) && (n <=? 57) then number s' (10 * acc + (n - 48))
      else None
  end.

Definition isLeap (y : Z) : bool :=
  (y mod 4 =? 0) && (negb (y mod 100 =? 0) || (y mod 400 =? 0)).

Definition daysInMonth (y m : Z) : Z :=
  if m =? 2 then (if isLeap y then 29 else 28)
  else if (m =? 4) || (m =? 6) || (m =? 9) || (m =? 11) then 30
  else 31.

Definition julianDay (y m d : Z) : Z :=
  let a := (14 - m) / 12 in
  let y' := y + 4800 - a in
  let m' := m + 12 * a - 3 in
  d + (153 * m' + 2) / 5 + 365 * y' + y' / 4 - y' / 100 + y' / 400 - 32045.

Definition fromString (s : string) : QDate :=
  if (String.length s =? 10)%nat
     && String.eqb (String.substring 4 1 s) "-"
     && String.eqb (String.substring 7 1 s) "-"
  then
    match number (String.substring 0 4 s) 0,
          number (String.substring 5 2 s) 0,
          number (String.substring 8 2 s) 0 with
    | Some y, Some m, Some d =>
        if (1 <=? y) && (1 <=? m) && (m <=? 12) && (1 <=? d)
           && (d <=? daysInMonth y m)
        then julianDay y m d else nullJd
    | _, _, _ => nullJd
    end
  else nullJd.

End IsoDate.

(** ** Sample data *)

Module Sample.

Definition english : BCP47Language :=
  setSubtag "en" (addDescription "English" newLanguage).

Definition unitedKingdom : BCP47Language :=
  setType REGION
    (setSubtag "GB" (addDescription "United Kingdom" newLanguage)).

Definition latin : BCP47Language :=
  setType SCRIPT (setSubtag "Latn" (addDescription "Latin" newLanguage)).

Definition nedis : BCP47Language :=
  setType VARIANT
    (addPrefix "sl"
       (setSubtag "nedis" (addDescription "Natisone dialect" newLanguage))).

Definition afar : BCP47Language :=
  setSubtag "aa" (addDescription "Afar" newLanguage).

(** A redundant tag that is no variant subtag. *)
Definition zhHans : BCP47Language :=
  setType REDUNDANT
    (setTag "zh-Hans" (addDescription "simplified Chinese" newLanguage)).

(** The index after a snapshot with these records has been loaded. *)
Definition index : BCP47Languages :=
  loadRecords (Some (IsoDate.fromString "2021-08-06"))
    [english; unitedKingdom; latin; nedis; zhHans] emptyLanguages.

Definition nl : string := String newline EmptyString.

Definition lines (l : list string) : string :=
  fold_right (fun a b => a ++ nl ++ b) "" l.

End Sample.

(** ** Predicates of the statements *)

(** The private-use test of [checkPrimaryLanguage], as the code writes it. *)
Definition inPrivateLanguageRange (value : string) : bool :=
  QString.eq value "i" || QString.eq value "x"
  || (QString.ge value "qaa" && QString.le value "qtz").

(** The parser before a file date has been accepted: no record is open,
    none is stored and the date is null. *)
Definition awaiting (p : Parser) : Prop :=
  dateFound p = false /\ language p = None /\ languageMap p = []
  /\ fileDate p = nullJd.

(** [r], when it returns, has every error that [p] has. *)
Definition keepsErrors (r : Result Parser) (p : Parser) : Prop :=
  forall p', r = Returns p' ->
             forall x, In x (errors p) -> In x (errors p').

(** No dash at the start of the text or right after another dash;
    [afterDash] tells whether the text follows a dash or the start. *)
Fixpoint noEmptyCandidate (afterDash : bool) (s : string) : bool :=
  match s with
  | EmptyString => true
  | String c s' =>
      if Ascii.eqb c dash then negb afterDash && noEmptyCandidate true s'
      else noEmptyCandidate false s'
  end.

Definition inDataset (s : BCP47Languages) (l : BCP47Language) : Prop :=
  In l (List.map snd (m_datasetByDescription s)).

(** Every record of the seven maps by subtag or tag is one of [D]. *)
Definition subtagMapsWithin (D : BCP47Language -> Prop) (s : BCP47Languages)
  : Prop :=
  forall (k : string) (l : BCP47Language),
    m_languageBySubtag s !! k = Some l
    \/ m_extlangBySubtag s !! k = Some l
    \/ m_regionBySubtag s !! k = Some l
    \/ m_scriptBySubtag s !! k = Some l
    \/ m_variantBySubtag s !! k = Some l
    \/ m_grandfatheredByTag s !! k = Some l
    \/ m_redundantByTag s !! k = Some l ->
    D l.

(** The number of line feeds of a text. *)
Fixpoint countLines (data : string) : Z :=
  match data with
  | EmptyString => 0
  | String c data' =>
      (if Ascii.eqb c newline then 1 else 0) + countLines data'
  end.

(** ** A registry as records of fields *)


(** [name: value] *)
Definition fieldLineText (name v : string) : string :=
  name ++ String colon (String " " v).

Definition typeName (kind : Type_) : string :=
  typeString (setType kind newLanguage).


(** A value on one line, without colon, and not blank. *)
Definition valueOk (v : string) : bool :=
  negb (QString.contains colon v) && negb (QString.contains newline v)
  && negb (QString.isEmpty (QString.trimmed v)).




Definition lineFeed : string := String newline EmptyString.









(** Every record of the seven maps by subtag or tag satisfies [D], has the
    type of its map and sits under its own subtag or tag. *)
Definition indexSound (D : BCP47Language -> Prop) (s : BCP47Languages)
  : Prop :=
  forall (k : string) (l : BCP47Language),
    (m_languageBySubtag s !! k = Some l ->
     D l /\ m_type l = LANGUAGE /\ m_subtag l = k)
    /\ (m_extlangBySubtag s !! k = Some l ->
        D l /\ m_type l = EXTLANG /\ m_subtag l = k)
    /\ (m_regionBySubtag s !! k = Some l ->
        D l /\ m_type l = REGION /\ m_subtag l = k)
    /\ (m_scriptBySubtag s !! k = Some l ->
        D l /\ m_type l = SCRIPT /\ m_subtag l = k)
    /\ (m_variantBySubtag s !! k = Some l ->
        D l /\ m_type l = VARIANT /\ m_subtag l = k)
    /\ (m_grandfatheredByTag s !! k = Some l ->
        D l /\ m_type l = GRANDFATHERED /\ m_tag l = k)
    /\ (m_redundantByTag s !! k = Some l ->
        D l /\ m_type l = REDUNDANT /\ m_tag l = k).

(** The key of [l] is in the map of the type of [l]. *)
Definition registered (s : BCP47Languages) (l : BCP47Language) : Prop :=
  match m_type l with
  | LANGUAGE => isPrimaryLanguage s (m_subtag l) = true
  | EXTLANG => isExtLang s (m_subtag l) = true
  | REGION => isRegion s (m_subtag l) = true
  | SCRIPT => isScript s (m_subtag l) = true
  | VARIANT => isVariant s (m_subtag l) = true
  | GRANDFATHERED => isGrandfathered s (m_tag l) = true
  | REDUNDANT => isRedundant s (m_tag l) = true
  | BAD_TAG => True
  end.

(** ** A tag as candidates between dashes *)

(** The type that [testTag] gives to a candidate it accepts: the first
    check of the chain that does not answer with its [NO_] value. *)
Definition classified (s : BCP47Languages) (v : string) : option Z :=
  if negb (checkPrimaryLanguage s v =? TagType.NO_PRIMARY_LANGUAGE)
  then Some (checkPrimaryLanguage s v)
  else if negb (checkExtendedlanguage s v =? TagType.NO_EXTENDED_LANGUAGE)
  then Some (checkExtendedlanguage s v)
  else if negb (checkScript s v =? TagType.NO_SCRIPT)
  then Some (checkScript s v)
  else if negb (checkRegion s v =? TagType.NO_REGION)
  then Some (checkRegion s v)
  else None.

(** The token for a candidate that starts at [i] when [text] is what
    [subvalue] holds at its end. *)
Definition tokenOf (s : BCP47Languages) (i : Z) (text : string)
  : TagTestResult :=
  match classified s text with
  | Some ty => mkResult ty i (QString.length text) text
  | None => mkResult TagType.BAD_SUBTAG i (QString.length text) ""
  end.

(** The tokens of the candidates [cands], the first of which starts at
    [i], when [acc] is the text of the candidates before them. *)
Fixpoint tokensOf (s : BCP47Languages) (i : Z) (acc : string)
  (cands : list string) : list TagTestResult :=
  match cands with
  | [] => []
  | c :: cs =>
      tokenOf s i (acc ++ c)
      :: tokensOf s (i + QString.length c + 1) (acc ++ c) cs
  end.

(** The candidates with a dash between them. *)
Fixpoint joinDashes (cands : list string) : string :=
  match cands with
  | [] => ""
  | [c] => c
  | c :: cs => c ++ String dash (joinDashes cs)
  end.

(** A candidate: not empty, without dash and without whitespace. *)
Definition candidateOk (c : string) : bool :=
  negb (QString.isEmpty c) && negb (QString.contains dash c)
  && String.eqb (removeWhitespace c) c.

(** The pointer [result] once a character of a candidate has been read. *)
Definition resultAfter (o : option TagTestResult) (i : Z)
  : option TagTestResult :=
  match o with
  | None => Some (setStart i newResult)
  | Some r => Some r
  end.

(** What follows a candidate: the end of the text, or a dash and more. *)
Definition afterCandidate (s : BCP47Languages) (len i : Z) (rest : string)
  (sc : Scan) : Result Scan :=
  match rest with
  | EmptyString => Returns sc
  | String _ rest' => testTagLoop s len (i + 1) rest' sc
  end.

(** The errors the parser can record. *)
Definition reportedFlags (e : Z) : Prop :=
  e = Error.BAD_FILE_DATE \/ e = Error.EMPTY_NAME
  \/ e = Z.lor Error.EMPTY_NAME Error.EMPTY_VALUE
  \/ e = Error.UNKNOWN_TAG_TYPE.

(** Every error lies on a line counted so far and is a reported flag. *)
Definition errorsWithin (first : Z) (p : Parser) : Prop :=
  forall n e, In (n, e) (errors p) ->
              first < n <= m_lineNumber p /\ reportedFlags e.

(** The parser has accepted a file date and a record is open. *)
Definition recordOpen (p : Parser) : Prop :=
  dateFound p = true /\ is_Some (language p).

(** Every pair of the map holds a record under one of its descriptions. *)
Definition keyedByDescription (m : StringMultiMap BCP47Language) : Prop :=
  forall d l, In (d, l) m -> In d (m_descriptions l).



(** The key of a record in the map of its type. *)
Definition keyOf (l : BCP47Language) : string :=
  match m_type l with
  | GRANDFATHERED | REDUNDANT => m_tag l
  | _ => m_subtag l
  end.

(** * Properties *)

(** ** The classification functions *)

Lemma hasKey_true (m : gmap string BCP47Language) (k : string) :
  hasKey m k = true <-> is_Some (m !! k).
Proof.
  unfold hasKey. destruct (m !! k) as [v|]; split; intros H.
  - eauto.
  - reflexivity.
  - discriminate.
  - destruct H as [v H]. discriminate.
Qed.

Lemma hasKey_dom (m : gmap string BCP47Language) (k : string) :
  hasKey m k = true <-> k ∈ dom m.
Proof. rewrite hasKey_true. symmetry. apply elem_of_dom. Qed.

Lemma checkPrimaryLanguage_cases (s : BCP47Languages) (value : string) :
  checkPrimaryLanguage s value =
    if inPrivateLanguageRange value then TagType.PRIVATE_LANGUAGE
    else if isPrimaryLanguage s value then TagType.PRIMARY_LANGUAGE
    else TagType.NO_PRIMARY_LANGUAGE.
Proof. reflexivity. Qed.

Lemma checkPrimaryLanguage_private_iff (s : BCP47Languages) (value : string) :
  checkPrimaryLanguage s value = TagType.PRIVATE_LANGUAGE
  <-> inPrivateLanguageRange value = true.
Proof.
  rewrite checkPrimaryLanguage_cases.
  destruct (inPrivateLanguageRange value); [tauto|].
  destruct (isPrimaryLanguage s value); split; discriminate.
Qed.

(** C8, at the inputs where the code leaves the claim: whatever the index
    holds, the two-letter string [qb] and the four-letter string [qaaa]
    are classified [PRIVATE_LANGUAGE], because the range test compares
    strings of any length. *)
Theorem checkPrimaryLanguage_ignores_length (s : BCP47Languages) :
  String.length "qb" = 2%nat
  /\ checkPrimaryLanguage s "qb" = TagType.PRIVATE_LANGUAGE
  /\ String.length "qaaa" = 4%nat
  /\ checkPrimaryLanguage s "qaaa" = TagType.PRIVATE_LANGUAGE.
Proof. repeat split. Qed.

(** C10: [checkRedundant] answers [REDUNDANT_LANGUAGE] exactly for the keys
    of the variant subtag map and [NO_REDUNDANT_LANGUAGE] for every other
    string; so a tag of the redundant map that is no variant subtag is
    answered [NO_REDUNDANT_LANGUAGE]. *)
Theorem checkRedundant_consults_variants (s : BCP47Languages) (value : string) :
  (checkRedundant s value = TagType.REDUNDANT_LANGUAGE
   <-> value ∈ dom (m_variantBySubtag s))
  /\ (checkRedundant s value = TagType.NO_REDUNDANT_LANGUAGE
      <-> value ∉ dom (m_variantBySubtag s))
  /\ (value ∈ dom (m_redundantByTag s) ->
      value ∉ dom (m_variantBySubtag s) ->
      isRedundant s value = true
      /\ checkRedundant s value = TagType.NO_REDUNDANT_LANGUAGE).
Proof.
  assert (Hv : isVariant s value = true <-> value ∈ dom (m_variantBySubtag s))
    by apply hasKey_dom.
  unfold checkRedundant.
  destruct (isVariant s value) eqn:E.
  - assert (value ∈ dom (m_variantBySubtag s)) by (apply Hv; reflexivity).
    repeat split; try done.
  - assert (value ∉ dom (m_variantBySubtag s)).
    { intros Hin. apply Hv in Hin. discriminate. }
    repeat split; try done.
    apply hasKey_dom. assumption.
Qed.

Lemma checkRedundant_consults_variants_witness :
  isRedundant Sample.index "zh-Hans" = true
  /\ checkRedundant Sample.index "zh-Hans" = TagType.NO_REDUNDANT_LANGUAGE.
Proof.
  apply (checkRedundant_consults_variants Sample.index "zh-Hans").
  - apply hasKey_dom. vm_compute. reflexivity.
  - intros H. apply hasKey_dom in H. vm_compute in H. discriminate.
Defined.

(** ** Replacement of the dataset *)

(** C9: a dataset whose file date is equal to or earlier than the held one
    changes nothing (the object is the same, dataset and file date
    included) and causes no signal and no write; whenever anything changes
    or happens, the new date is strictly later than the held one. *)
Theorem iainFileParsed_not_newer (s : BCP47Languages)
  (languages : StringMultiMap BCP47Language) (fileDate : QDate)
  (noErrors : bool) :
  (fileDate <= m_fileDate s ->
   iainFileParsed s languages fileDate noErrors = (s, []))
  /\ (iainFileParsed s languages fileDate noErrors <> (s, []) ->
      m_fileDate s < fileDate).
Proof.
  unfold iainFileParsed, QDate_lt.
  destruct (Z.ltb_spec (m_fileDate s) fileDate) as [Hlt | Hge].
  - split; [lia | intros _; exact Hlt].
  - split; [reflexivity | congruence].
Qed.

Lemma iainFileParsed_not_newer_witness :
  iainFileParsed Sample.index [("Afar", Sample.afar)]
    (IsoDate.fromString "2021-08-06") true = (Sample.index, []).
Proof.
  apply (iainFileParsed_not_newer Sample.index [("Afar", Sample.afar)]
           (IsoDate.fromString "2021-08-06") true).
  vm_compute. discriminate.
Defined.

(** A strictly newer dataset without errors replaces dataset and date. *)
Lemma iainFileParsed_newer (s : BCP47Languages)
  (languages : StringMultiMap BCP47Language) (fileDate : QDate) :
  m_fileDate s < fileDate ->
  let s' := fst (iainFileParsed s languages fileDate true) in
  m_datasetByDescription s' = languages /\ m_fileDate s' = fileDate.
Proof.
  intros Hlt. unfold iainFileParsed, QDate_lt.
  apply Z.ltb_lt in Hlt. rewrite Hlt. split; reflexivity.
Qed.

(** [iainFileParsed] never writes the fourteen index maps. *)
Lemma iainFileParsed_keeps_index (s : BCP47Languages)
  (languages : StringMultiMap BCP47Language) (fileDate : QDate)
  (noErrors : bool) :
  let s' := fst (iainFileParsed s languages fileDate noErrors) in
  m_languageBySubtag s' = m_languageBySubtag s
  /\ m_extlangBySubtag s' = m_extlangBySubtag s
  /\ m_regionBySubtag s' = m_regionBySubtag s
  /\ m_scriptBySubtag s' = m_scriptBySubtag s
  /\ m_variantBySubtag s' = m_variantBySubtag s
  /\ m_grandfatheredByTag s' = m_grandfatheredByTag s
  /\ m_redundantByTag s' = m_redundantByTag s
  /\ m_languageByDescription s' = m_languageByDescription s
  /\ m_extlangByDescription s' = m_extlangByDescription s
  /\ m_regionByDescription s' = m_regionByDescription s
  /\ m_scriptByDescription s' = m_scriptByDescription s
  /\ m_variantByDescription s' = m_variantByDescription s
  /\ m_grandfatheredByDescription s' = m_grandfatheredByDescription s
  /\ m_redundantByDescription s' = m_redundantByDescription s.
Proof.
  unfold iainFileParsed.
  destruct (QDate_lt (m_fileDate s) fileDate), noErrors;
    repeat split; reflexivity.
Qed.

(** C7, at an input where the code leaves the claim: the index holds the
    sample snapshot, and a strictly newer registry without errors arrives
    whose only record is Afar. The dataset and the date are replaced, yet
    the lookups answer from the maps of the old snapshot: [en] is still a
    language, found by subtag and by description, and [aa] is not. Even a
    later [updateMaps] leaves the old record in the map by description. *)
Theorem iainFileParsed_leaves_stale_index :
  let newer := [("Afar", Sample.afar)] in
  let s' := fst (iainFileParsed Sample.index newer
                   (IsoDate.fromString "2022-03-02") true) in
  m_datasetByDescription s' = newer
  /\ m_fileDate s' = IsoDate.fromString "2022-03-02"
  /\ languageFromSubtag s' "en" = Some Sample.english
  /\ languageFromDescription s' "English" = Some Sample.english
  /\ isPrimaryLanguage s' "en" = true
  /\ languageFromSubtag s' "aa" = None
  /\ languageFromSubtag (updateMaps s') "aa" = Some Sample.afar
  /\ languageFromSubtag (updateMaps s') "en" = None
  /\ languageFromDescription (updateMaps s') "English" = Some Sample.english.
Proof. vm_compute. repeat split. Qed.

(** ** The tag builders *)

Lemma languageTag_returns (s : BCP47Languages) (languageName regionName : string) :
  exists t, languageTag s languageName regionName = Returns t.
Proof.
  unfold languageTag.
  destruct (QString.isEmpty regionName), (m_languageBySubtag s !! languageName),
    (m_regionBySubtag s !! regionName); eauto.
Qed.

Lemma languageTag_unresolved (s : BCP47Languages) (languageName regionName : string) :
  m_languageBySubtag s !! languageName = None
  \/ (regionName <> "" /\ m_regionBySubtag s !! regionName = None) ->
  languageTag s languageName regionName = Returns "".
Proof.
  unfold languageTag. intros [H | [Hne H]].
  - rewrite H. destruct (QString.isEmpty regionName); reflexivity.
  - destruct regionName as [|c r]; [congruence|]. simpl. rewrite H.
    destruct (m_languageBySubtag s !! languageName); reflexivity.
Qed.

(** C3, at the inputs where the code leaves the claim: a name that does not
    resolve makes [extLangTag] dereference a null pointer, and so do
    [scriptTag] when exactly one of its two names resolves and
    [variantTag] with a region when only the region resolves; only
    [languageTag] returns the empty string. *)
Theorem tag_builders_on_unresolved_names :
  m_languageBySubtag Sample.index !! "xx" = None
  /\ m_scriptBySubtag Sample.index !! "Xxxx" = None
  /\ m_variantBySubtag Sample.index !! "xxxxx" = None
  /\ extLangTag Sample.index "xx" = Aborts
  /\ scriptTag Sample.index "xx" "Latn" = Aborts
  /\ scriptTag Sample.index "en" "Xxxx" = Aborts
  /\ variantTag Sample.index "xxxxx" "GB" = Aborts
  /\ languageTag Sample.index "xx" "GB" = Returns "".
Proof. vm_compute. repeat split. Qed.

(** The same for every index. *)
Lemma extLangTag_unresolved (s : BCP47Languages) (name : string) :
  m_languageBySubtag s !! name = None -> extLangTag s name = Aborts.
Proof. intros H. unfold extLangTag. rewrite H. reflexivity. Qed.

Lemma scriptTag_one_unresolved (s : BCP47Languages) (languageName scriptName : string) :
  isNull (m_languageBySubtag s !! languageName)
  <> isNull (m_scriptBySubtag s !! scriptName) ->
  scriptTag s languageName scriptName = Aborts.
Proof.
  unfold scriptTag.
  destruct (m_languageBySubtag s !! languageName) as [t|],
    (m_scriptBySubtag s !! scriptName) as [sc|]; simpl; try congruence.
  intros _. destruct (at0 (m_prefix t)); reflexivity.
Qed.

Lemma variantTag_variant_unresolved (s : BCP47Languages) (name region : string) :
  m_variantBySubtag s !! name = None ->
  is_Some (m_regionBySubtag s !! region) -> region <> "" ->
  variantTag s name region = Aborts.
Proof.
  intros Hv [r Hr] Hne. unfold variantTag. rewrite Hv, Hr.
  destruct region; [congruence | reflexivity].
Qed.

(** ** The tokenizer *)

(** Closing a candidate while [result] is null dereferences it, whatever
    the classification of the candidate is. *)
Lemma closeCandidate_null (s : BCP47Languages) (sub : string)
  (rs : list TagTestResult) :
  closeCandidate s (mkScan sub None rs) = Aborts.
Proof.
  unfold closeCandidate, accept, reject. simpl.
  repeat match goal with |- context [if ?b then _ else _] => destruct b end;
    reflexivity.
Qed.

(** Closing a candidate while [result] points to a token appends that
    token: it keeps its start, its length is the length of [subvalue], and
    its text is [subvalue], or is left as it was for a bad subtag. *)
Lemma closeCandidate_token (s : BCP47Languages) (sub : string)
  (r : TagTestResult) (rs : list TagTestResult) :
  exists ty txt,
    closeCandidate s (mkScan sub (Some r) rs)
    = Returns (mkScan sub None
                 (rs ++ [mkResult ty (start r) (QString.length sub) txt])%list)
    /\ (txt = sub \/ txt = text r).
Proof.
  unfold closeCandidate, accept, reject. simpl.
  repeat match goal with |- context [if ?b then _ else _] => destruct b end;
    eauto.
Qed.

Lemma closeCandidate_primary (s : BCP47Languages) (sub : string)
  (r : TagTestResult) (rs : list TagTestResult) :
  inPrivateLanguageRange sub = false ->
  isPrimaryLanguage s sub = true ->
  closeCandidate s (mkScan sub (Some r) rs)
  = Returns (mkScan sub None
               (rs ++ [mkResult TagType.PRIMARY_LANGUAGE (start r)
                         (QString.length sub) sub])%list).
Proof.
  intros Hp Hl. unfold closeCandidate.
  rewrite checkPrimaryLanguage_cases. simpl. rewrite Hp, Hl. reflexivity.
Qed.

(** C1, where the code leaves the claim: in every index that has [en] as a
    language and [GB] as a region, [en-GB] gives the token of [en] the
    claim describes, but the second token, which starts at 3, has length 4
    and not 2, and its text is [enGB] or empty and never [GB]:
    [subvalue] is not cleared between candidates. *)
Theorem testTag_en_GB (s : BCP47Languages) :
  isPrimaryLanguage s "en" = true ->
  isRegion s "GB" = true ->
  exists ty txt,
    testTag s "en-GB"
    = Returns [mkResult TagType.PRIMARY_LANGUAGE 0 2 "en";
               mkResult ty 3 4 txt]
    /\ (txt = "enGB" \/ txt = "").
Proof.
  intros Hen _. unfold testTag.
  pose proof (closeCandidate_primary s "en" (mkResult 0 0 0 "") []
                eq_refl Hen) as H1.
  destruct (closeCandidate_token s "enGB" (mkResult 0 3 0 "")
              [mkResult TagType.PRIMARY_LANGUAGE 0 2 "en"])
    as (ty & txt & H2 & Ht).
  exists ty, txt. split; [| exact Ht].
  cbv -[closeCandidate] in H1, H2 |- *.
  rewrite H1. cbv -[closeCandidate]. rewrite H2. reflexivity.
Qed.

Lemma testTag_en_GB_witness :
  exists ty txt,
    testTag Sample.index "en-GB"
    = Returns [mkResult TagType.PRIMARY_LANGUAGE 0 2 "en";
               mkResult ty 3 4 txt]
    /\ (txt = "enGB" \/ txt = "").
Proof.
  apply (testTag_en_GB Sample.index); vm_compute; reflexivity.
Defined.

(** In the sample index the second token of [en-GB] is a bad subtag. *)
Example testTag_en_GB_sample :
  testTag Sample.index "en-GB"
  = Returns [mkResult TagType.PRIMARY_LANGUAGE 0 2 "en";
             mkResult TagType.BAD_SUBTAG 3 4 ""]
  /\ testTag Sample.index "GB"
     = Returns [mkResult TagType.REGIONAL_LANGUAGE 0 2 "GB"].
Proof. vm_compute. split; reflexivity. Qed.

Lemma removeWhitespace_dash (rest : string) :
  removeWhitespace (String dash rest) = String dash (removeWhitespace rest).
Proof. reflexivity. Qed.

(** C2, where the code leaves the claim: in every index, a tag that starts
    with a dash makes [testTag] dereference the null [result], so it does
    not return; a doubled dash does the same in the sample index, and a
    dash at the end yields no token for the empty candidate after it. *)
Theorem testTag_leading_dash (s : BCP47Languages) (rest : string) :
  testTag s (String dash rest) = Aborts
  /\ testTag Sample.index "en--GB" = Aborts
  /\ testTag Sample.index "en-"
     = Returns [mkResult TagType.PRIMARY_LANGUAGE 0 2 "en"].
Proof.
  split; [| split; vm_compute; reflexivity].
  unfold testTag. rewrite removeWhitespace_dash.
  unfold testTagLoop; fold testTagLoop.
  change (Ascii.eqb dash dash) with true. cbv beta iota zeta.
  rewrite Bool.orb_true_l.
  change (negb true && _) with false. cbv iota.
  rewrite closeCandidate_null. reflexivity.
Qed.

(** ** The parser *)

Lemma append_push (a : string) (c : ascii) (b : string) :
  QString.push a c ++ b = a ++ String c b.
Proof.
  unfold QString.push. induction a as [|d a IH].
  - reflexivity.
  - change (String d ((a ++ String c "") ++ b) = String d (a ++ String c b)).
    f_equal. exact IH.
Qed.

Lemma append_empty_r (a : string) : a ++ "" = a.
Proof.
  induction a as [|d a IH]; [reflexivity|].
  change (String d (a ++ "") = String d a). f_equal. exact IH.
Qed.

Lemma mm_insert_In {K V : Type} (ltb : K -> K -> bool) (k : K) (v : V)
  (m : list (K * V)) (e : K * V) :
  In e m -> In e (mm_insert ltb k v m).
Proof.
  induction m as [|[k' v'] m IH]; simpl; [tauto|].
  intros [He | He]; destruct (ltb k' k); simpl; auto.
Qed.

Lemma mm_insert_new {K V : Type} (ltb : K -> K -> bool) (k : K) (v : V)
  (m : list (K * V)) :
  In (k, v) (mm_insert ltb k v m).
Proof.
  induction m as [|[k' v'] m IH]; simpl; [tauto|].
  destruct (ltb k' k); simpl; auto.
Qed.

Section ParseFacts.

Variable f : string -> QDate.

Lemma run_app (a b : string) (p : Parser) :
  run f (a ++ b) p = bindR (run f a p) (run f b).
Proof.
  revert p. induction a as [|c a IH]; intros p; simpl.
  - reflexivity.
  - destruct (step f c p) as [p'|]; simpl; [apply IH | reflexivity].
Qed.

(** Characters other than the line feed gather in [line]. *)
Lemma run_within_line (s : string) (p : Parser) :
  QString.contains newline s = false ->
  run f s p = Returns (setLine (line p ++ s) p).
Proof.
  revert p. induction s as [|c s IH]; intros p; simpl.
  - intros _. rewrite append_empty_r. destruct p; reflexivity.
  - intros H. apply Bool.orb_false_iff in H as [Hc Hs].
    unfold step. rewrite Hc. simpl. rewrite (IH _ Hs). simpl.
    rewrite append_push. reflexivity.
Qed.

(** *** The gate on [dateFound] *)

Lemma awaiting_new : awaiting newParser.
Proof. repeat split. Qed.

Lemma step_awaiting (c : ascii) (p : Parser) :
  awaiting p ->
  exists p', step f c p = Returns p'
             /\ (awaiting p' \/ dateFound p' = true).
Proof.
  intros (Hd & Hl & Hm & Hf). unfold step.
  destruct (Ascii.eqb c newline).
  - unfold endOfLine. simpl. rewrite Hd. simpl.
    eexists. split; [reflexivity|].
    unfold awaitDate. simpl.
    destruct (QString.startsWithCI "file-date" (line p)).
    + destruct (List.length (QString.split colon (line p)) =? 2)%nat.
      * right. reflexivity.
      * left. repeat split; assumption.
    + left. repeat split; assumption.
  - eexists. split; [reflexivity|]. left. repeat split; assumption.
Qed.

(** Either no file date is ever accepted, and then the parser reads the
    document to its end in the awaiting state, or a prefix of the
    document ends with the acceptance of a file date. *)
Lemma run_awaiting (data : string) (p : Parser) :
  awaiting p ->
  (exists p', run f data p = Returns p' /\ awaiting p')
  \/ (exists pre post p',
        data = pre ++ post /\ run f pre p = Returns p'
        /\ dateFound p' = true).
Proof.
  revert p. induction data as [|c data IH]; intros p Hp.
  - left. exists p. split; [reflexivity | assumption].
  - destruct (step_awaiting c p Hp) as (p1 & Hs & [Ha | Hd]).
    + destruct (IH p1 Ha) as [(p' & Hr & Hp') | (pre & post & p' & -> & Hr & Hd)].
      * left. exists p'. simpl. rewrite Hs. simpl. auto.
      * right. exists (String c pre), post, p'. simpl. rewrite Hs. simpl.
        auto.
    + right. exists (String c ""), data, p1. simpl. rewrite Hs. simpl. auto.
Qed.

(** *** Errors are only added *)

Lemma insertError_In (e : Z) (p : Parser) (x : Z * Z) :
  In x (errors p) -> In x (errors (insertError e p)).
Proof. apply mm_insert_In. Qed.

Lemma keepsErrors_Returns (p q : Parser) :
  (forall x, In x (errors p) -> In x (errors q)) ->
  keepsErrors (Returns q) p.
Proof. intros H p' [= <-]. exact H. Qed.

Lemma keepsErrors_Aborts (p : Parser) : keepsErrors Aborts p.
Proof. intros p' H. discriminate. Qed.

Lemma onLanguage_errors (g : BCP47Language -> BCP47Language) (p : Parser) :
  errors (onLanguage g p) = errors p.
Proof. unfold onLanguage. destruct (language p); reflexivity. Qed.

Lemma continuation_errors (p : Parser) : keepsErrors (continuation p) p.
Proof.
  unfold continuation.
  destruct (state p), (language p); simpl;
    first [apply keepsErrors_Aborts | apply keepsErrors_Returns; auto].
Qed.

Lemma applyField_errors (lName value : string) (p : Parser) :
  keepsErrors (applyField f lName value p) p.
Proof.
  intros p' H x Hx. unfold applyField, bindR, deref in H.
  repeat case_match; simplify_eq; simpl;
    rewrite ?onLanguage_errors; auto using mm_insert_In.
Qed.

Lemma dispatch_errors (b : bool) (splits : list string) (value : string)
  (p : Parser) :
  keepsErrors (dispatch f b splits value p) p.
Proof.
  unfold dispatch. destruct b;
    [apply applyField_errors | apply continuation_errors].
Qed.

Lemma fieldLine_errors (p : Parser) : keepsErrors (fieldLine f p) p.
Proof.
  unfold fieldLine.
  destruct (QString.splitSkipEmpty colon (line p)) as [|s0 [|s1 [|s2 r]]].
  - apply keepsErrors_Returns. intros x. apply insertError_In.
  - apply dispatch_errors.
  - match goal with
    | |- context [if negb (?e =? Error.NO_ERROR) then _ else _] =>
        destruct (negb (e =? Error.NO_ERROR))
    end.
    + intros p' Hp' x Hx.
      eapply (dispatch_errors _ _ _ _ p' Hp'). apply insertError_In, Hx.
    + apply dispatch_errors.
  - apply dispatch_errors.
Qed.

Lemma awaitDate_errors (p : Parser) (x : Z * Z) :
  In x (errors p) -> In x (errors (awaitDate f p)).
Proof.
  intros Hx. unfold awaitDate.
  repeat case_match; simpl; auto using mm_insert_In.
Qed.

Lemma separator_errors (p : Parser) : errors (separator p) = errors p.
Proof. unfold separator. repeat case_match; reflexivity. Qed.

Lemma endOfLine_errors (p : Parser) : keepsErrors (endOfLine f p) p.
Proof.
  unfold endOfLine.
  set (q := setLineNumber (m_lineNumber p + 1) p).
  change (errors p) with (errors q). intros p' H x Hx.
  change ((if negb (dateFound q) then Returns (awaitDate f q)
           else if QString.eq (line q) "%%" then Returns (separator q)
           else if QString.contains colon (line q) then fieldLine f q
           else continuation q) = Returns p') in H.
  destruct (negb (dateFound q)).
  - injection H as <-. apply awaitDate_errors, Hx.
  - destruct (QString.eq (line q) "%%").
    + injection H as <-. rewrite separator_errors. exact Hx.
    + destruct (QString.contains colon (line q)).
      * exact (fieldLine_errors q p' H x Hx).
      * exact (continuation_errors q p' H x Hx).
Qed.

Lemma step_errors (c : ascii) (p : Parser) : keepsErrors (step f c p) p.
Proof.
  unfold step. destruct (Ascii.eqb c newline).
  - apply endOfLine_errors.
  - apply keepsErrors_Returns. auto.
Qed.

Lemma run_errors (data : string) (p p' : Parser) (x : Z * Z) :
  run f data p = Returns p' -> In x (errors p) -> In x (errors p').
Proof.
  revert p. induction data as [|c data IH]; intros p; simpl.
  - intros [= <-]. auto.
  - destruct (step f c p) as [p1|] eqn:Hs; simpl; [|discriminate].
    intros Hr Hx. apply (IH p1 Hr). exact (step_errors c p p1 Hs x Hx).
Qed.

Lemma finish_errors (p : Parser) : errors (finish p) = errors p.
Proof. unfold finish. destruct (language p); reflexivity. Qed.

Lemma finish_awaiting (p : Parser) : awaiting p -> finish p = p.
Proof. intros (_ & Hl & _). unfold finish. rewrite Hl. reflexivity. Qed.

End ParseFacts.

Lemma append_line_feed (a b : string) :
  a ++ String newline b = (a ++ String newline "") ++ b.
Proof.
  induction a as [|d a IH]; [reflexivity|].
  change (String d (a ++ String newline b)
          = String d ((a ++ String newline "") ++ b)).
  f_equal. exact IH.
Qed.

(** The end of a line that does not start with [file-date], before a file
    date has been accepted: an error for that line and nothing else. *)
Lemma endOfLine_no_file_date (f : string -> QDate) (p : Parser) :
  dateFound p = false ->
  QString.startsWithCI "file-date" (line p) = false ->
  endOfLine f p
  = Returns (insertError Error.BAD_FILE_DATE
               (setLineNumber (m_lineNumber p + 1) p)).
Proof.
  intros Hd Hs. unfold endOfLine.
  change (dateFound (setLineNumber (m_lineNumber p + 1) p))
    with (dateFound p).
  rewrite Hd. unfold awaitDate.
  change (line (setLineNumber (m_lineNumber p + 1) p)) with (line p).
  rewrite Hs. reflexivity.
Qed.

(** After a first line that does not start with [file-date]: one error,
    for line 1, and the parser still awaits the date. Nothing is said here
    about the text that stays in [line]. *)
Lemma run_first_line (f : string -> QDate) (first : string) :
  QString.contains newline first = false ->
  QString.startsWithCI "file-date" first = false ->
  exists p1, run f (first ++ String newline "") newParser = Returns p1
             /\ errors p1 = [(1, Error.BAD_FILE_DATE)]
             /\ awaiting p1.
Proof.
  intros Hn Hs. rewrite run_app, (run_within_line f first _ Hn).
  change (exists p1,
             bindR (endOfLine f (setLine first newParser)) Returns = Returns p1
             /\ errors p1 = [(1, Error.BAD_FILE_DATE)] /\ awaiting p1).
  rewrite (endOfLine_no_file_date f (setLine first newParser) eq_refl Hs).
  eexists. split; [reflexivity|]. split; [reflexivity|]. repeat split.
Qed.

(** C4, as the code has it: when the first line of a document does not
    start with [file-date] (letter case aside), the parser records a
    [BAD_FILE_DATE] error for line 1 that stays in the errors it reports,
    and still holds no date and no record after that line. Records are
    parsed only after a file date has been accepted: for every document,
    either the parser reads it to the end without accepting one, and then
    it reports an empty record set and the null date, or some prefix of
    the document ends with the acceptance of a file date. *)
Theorem parse_file_date_gate (f : string -> QDate) :
  (forall first rest : string,
      QString.contains newline first = false ->
      QString.startsWithCI "file-date" first = false ->
      (exists p1, run f (first ++ String newline "") newParser = Returns p1
                  /\ errors p1 = [(1, Error.BAD_FILE_DATE)]
                  /\ awaiting p1)
      /\ (forall out, parse f (first ++ String newline rest) = Returns out ->
                      In (1, Error.BAD_FILE_DATE) (parsedErrors out)
                      /\ parsedNoErrors out = false))
  /\ (forall data : string,
         (exists p, run f data newParser = Returns p
                    /\ dateFound p = false
                    /\ parse f data
                       = Returns (mkParsed [] nullJd (isNil (errors p))
                                    (errors p)))
         \/ (exists pre post p,
                data = pre ++ post /\ run f pre newParser = Returns p
                /\ dateFound p = true)).
Proof.
  split.
  - intros first rest Hn Hs.
    destruct (run_first_line f first Hn Hs) as (p1 & Hr1 & He & Ha).
    split; [eauto|].
    intros out Hout. unfold parse, parseFrom in Hout.
    rewrite append_line_feed, run_app, Hr1 in Hout. simpl in Hout.
    destruct (run f rest p1) as [p|] eqn:Hr; simpl in Hout; [|discriminate].
    injection Hout as <-. simpl.
    assert (Hin : In (1, Error.BAD_FILE_DATE) (errors (finish p))).
    { rewrite finish_errors. apply (run_errors f rest p1 p _ Hr).
      rewrite He. left. reflexivity. }
    split; [exact Hin|].
    destruct (errors (finish p)); [destruct Hin | reflexivity].
  - intros data.
    destruct (run_awaiting f data newParser awaiting_new)
      as [(p & Hr & Ha) | (pre & post & p & Hd & Hr & Hf)].
    + left. exists p. destruct Ha as (Hd & Hl & Hm & Hf) eqn:Ha'.
      split; [exact Hr|]. split; [exact Hd|].
      unfold parse, parseFrom. rewrite Hr. simpl.
      rewrite (finish_awaiting p Ha), Hm, Hf. reflexivity.
    + right. eauto 10.
Qed.

Lemma parse_file_date_gate_witness :
  let rest := Sample.lines ["%%"; "Type: language"; "Subtag: en";
                            "Description: English"] in
  let out := mkParsed [] nullJd false
               [(1, 1); (2, 1); (3, 1); (4, 1); (5, 1)] in
  QString.contains newline "Registry" = false
  /\ QString.startsWithCI "file-date" "Registry" = false
  /\ parse IsoDate.fromString ("Registry" ++ String newline rest)
     = Returns out
  /\ In (1, Error.BAD_FILE_DATE) (parsedErrors out)
  /\ parsedNoErrors out = false.
Proof.
  intros rest out.
  assert (Hn : QString.contains newline "Registry" = false)
    by (vm_compute; reflexivity).
  assert (Hs : QString.startsWithCI "file-date" "Registry" = false)
    by (vm_compute; reflexivity).
  assert (Hp : parse IsoDate.fromString ("Registry" ++ String newline rest)
               = Returns out) by (vm_compute; reflexivity).
  split; [exact Hn|]. split; [exact Hs|]. split; [exact Hp|].
  exact (proj2 (proj1 (parse_file_date_gate IsoDate.fromString)
                  "Registry" rest Hn Hs) out Hp).
Defined.

(** C4 as the specification states it fails: the same records that are
    parsed after a file-date line are not parsed after a first line that
    is none. The parser returns, with one [BAD_FILE_DATE] error for each
    line, the null date and an empty record set. *)
Lemma parse_without_file_date_counterexample :
  let records := Sample.lines ["%%"; "Type: language"; "Subtag: en";
                               "Description: English"] in
  parse IsoDate.fromString
    (Sample.lines ["File-Date: 2021-08-06"] ++ records)
  = Returns (mkParsed [("English", Sample.english)]
               (IsoDate.fromString "2021-08-06") true [])
  /\ parse IsoDate.fromString (Sample.lines ["Registry"] ++ records)
     = Returns (mkParsed [] nullJd false
                  [(1, Error.BAD_FILE_DATE); (2, Error.BAD_FILE_DATE);
                   (3, Error.BAD_FILE_DATE); (4, Error.BAD_FILE_DATE);
                   (5, Error.BAD_FILE_DATE)]).
Proof. vm_compute. split; reflexivity. Qed.

(** A first line that starts with [file-date] and has one colon is
    accepted whatever follows the colon: no error is recorded, the date is
    null, and the records are parsed. *)
Example parse_unreadable_date :
  parse IsoDate.fromString
    (Sample.lines ["File-Date: yesterday"; "%%"; "Type: language";
                   "Subtag: en"; "Description: English"])
  = Returns (mkParsed [("English", Sample.english)] nullJd true []).
Proof. vm_compute. reflexivity. Qed.

(** A [type] field before the first [%%] dereferences the null record. *)
Example parse_type_before_separator :
  parse IsoDate.fromString
    (Sample.lines ["File-Date: 2021-08-06"; "Type: language"])
  = Aborts.
Proof. vm_compute. reflexivity. Qed.

(** *** Values with colons *)

(** A line of three or more parts whose first part is a field name: the
    value handed to the field starts with that name. *)
Lemma fieldLine_many_parts (f : string -> QDate) (p : Parser)
  (s0 s1 s2 : string) (more : list string) :
  QString.splitSkipEmpty colon (line p) = s0 :: s1 :: s2 :: more ->
  isType (QString.trimmed s0) = true ->
  fieldLine f p
  = applyField f
      (QString.toLower (QString.toLower (QString.trimmed s0)))
      (QString.trimmed
         (reassemble (QString.trimmed s0) (s1 :: s2 :: more)))
      p.
Proof.
  intros Hs Ht. unfold fieldLine. rewrite Hs, Ht. unfold dispatch.
  reflexivity.
Qed.

(** A line of two parts: the value is the trimmed second part. *)
Lemma fieldLine_two_parts (f : string -> QDate) (p : Parser) (s0 s1 : string) :
  QString.splitSkipEmpty colon (line p) = [s0; s1] ->
  isType (QString.trimmed s0) = true ->
  QString.isEmpty (QString.trimmed s1) = false ->
  fieldLine f p
  = applyField f
      (QString.toLower (QString.toLower (QString.trimmed s0)))
      (QString.trimmed s1) p.
Proof.
  intros Hs Ht He. unfold fieldLine. rewrite Hs, Ht, He.
  destruct (negb (State_eqb (state p) COMMENT)); reflexivity.
Qed.

(** C5, at an input where the code leaves the claim: the comment
    [as of 12:30 see] of a record is stored with the field name and the
    first colon in front of it, where a comment without a colon is stored
    as the text after the colon. *)
Theorem parse_value_with_colons :
  parse IsoDate.fromString
    (Sample.lines ["File-Date: 2021-08-06"; "%%"; "Type: region";
                   "Subtag: GB"; "Description: United Kingdom";
                   "Comments: as of 12:30 see"])
  = Returns (mkParsed
               [("United Kingdom",
                 setComments "Comments: as of 12:30 see"
                   Sample.unitedKingdom)]
               (IsoDate.fromString "2021-08-06") true [])
  /\ parse IsoDate.fromString
       (Sample.lines ["File-Date: 2021-08-06"; "%%"; "Type: region";
                      "Subtag: GB"; "Description: United Kingdom";
                      "Comments: as of noon see"])
     = Returns (mkParsed
                  [("United Kingdom",
                    setComments "as of noon see" Sample.unitedKingdom)]
                  (IsoDate.fromString "2021-08-06") true []).
Proof. vm_compute. split; reflexivity. Qed.

(** *** The [scope] field *)

(** What a [scope] field does to the open record, for every value. *)
Lemma applyField_scope (f : string -> QDate) (value : string) (p : Parser) :
  applyField f "scope" value p
  = Returns (clearLine
               (if QString.eq value "macrolanguge" then
                  onLanguage (setMacrolanguage true) p
                else if QString.eq value "collection" then
                  onLanguage (setCollection true) p
                else p)).
Proof. reflexivity. Qed.

(** C6, at the inputs where the code leaves the claim: of four records
    that differ in their [scope] only, the one with [macrolanguage] and
    the one with [deprecated] have no flag set, the one with [collection]
    is a collection, and the one with the misspelt [macrolanguge] is the
    macrolanguage. *)
Theorem parse_scope_values :
  let registry (scope : string) :=
    Sample.lines ["File-Date: 2021-08-06"; "%%"; "Type: language";
                  "Subtag: aa"; "Description: Afar"; "Scope: " ++ scope] in
  let parsed (l : BCP47Language) :=
    Returns (mkParsed [("Afar", l)] (IsoDate.fromString "2021-08-06")
               true []) in
  parse IsoDate.fromString (registry "macrolanguage") = parsed Sample.afar
  /\ parse IsoDate.fromString (registry "deprecated") = parsed Sample.afar
  /\ parse IsoDate.fromString (registry "collection")
     = parsed (setCollection true Sample.afar)
  /\ parse IsoDate.fromString (registry "macrolanguge")
     = parsed (setMacrolanguage true Sample.afar)
  /\ m_macrolanguage Sample.afar = false
  /\ m_deprecated Sample.afar = false.
Proof. vm_compute. repeat split. Qed.

(** ** What the code does guarantee *)

(** *** The tokenizer returns when no candidate before a dash is empty *)

Lemma closeCandidate_returns (s : BCP47Languages) (sc : Scan) :
  is_Some (result sc) ->
  exists sc', closeCandidate s sc = Returns sc' /\ result sc' = None.
Proof.
  destruct sc as [sub [r|] rs]; intros [r' Hr]; [|discriminate].
  destruct (closeCandidate_token s sub r rs) as (ty & txt & Hc & _).
  rewrite Hc. eauto.
Qed.

Lemma testTagLoop_returns (s : BCP47Languages) (len : Z) (rest : string) :
  forall (i : Z) (sc : Scan) (afterDash : bool),
    len = i + QString.length rest ->
    (afterDash = false -> is_Some (result sc)) ->
    noEmptyCandidate afterDash rest = true ->
    exists sc', testTagLoop s len i rest sc = Returns sc'.
Proof.
  induction rest as [|c rest IH]; intros i sc afterDash Hlen Hres Hwf.
  - eexists. reflexivity.
  - assert (Hrest : len = (i + 1) + QString.length rest).
    { unfold QString.length in *. simpl String.length in Hlen. lia. }
    assert (Hpos : (i + 1 <=? len) = true).
    { apply Z.leb_le. unfold QString.length in Hrest. lia. }
    simpl in Hwf. unfold testTagLoop; fold testTagLoop. cbv zeta.
    rewrite Hpos. destruct (Ascii.eqb c dash) eqn:Hc.
    + apply andb_prop in Hwf as [Ha Hwf].
      destruct afterDash; [discriminate|].
      change (negb true && true) with false. cbv iota.
      rewrite Bool.orb_true_l.
      destruct (closeCandidate_returns s sc (Hres eq_refl)) as (sc2 & -> & _).
      apply (IH (i + 1) sc2 true Hrest); [discriminate | exact Hwf].
    + change (negb false && true) with true. cbv iota.
      rewrite Bool.orb_false_l.
      set (sc1 := mkScan _ _ _).
      assert (H1 : is_Some (result sc1)).
      { unfold sc1. simpl. destruct (result sc); eauto. }
      destruct (i + 1 =? len) eqn:Hend.
      * destruct (closeCandidate_returns s sc1 H1) as (sc2 & -> & _).
        apply Z.eqb_eq in Hend.
        assert (rest = "") as ->.
        { destruct rest; [reflexivity|].
          unfold QString.length in Hrest. simpl String.length in Hrest. lia. }
        eexists. reflexivity.
      * apply (IH (i + 1) sc1 false Hrest); [intros _; exact H1 | exact Hwf].
Qed.

(** On a tag that, once the whitespace is removed, neither starts with a
    dash nor has two dashes in a row, [testTag] returns. *)
Lemma testTag_returns (s : BCP47Languages) (tag : string) :
  noEmptyCandidate true (removeWhitespace tag) = true ->
  exists tokens, testTag s tag = Returns tokens.
Proof.
  intros Hwf. unfold testTag.
  destruct (testTagLoop_returns s (QString.length (removeWhitespace tag))
              (removeWhitespace tag) 0 (mkScan "" None []) true)
    as (sc & ->); [lia | discriminate | exact Hwf |].
  eexists. reflexivity.
Qed.

(** *** [updateMaps] rebuilds the maps by subtag and by tag *)

Lemma clearSubtagMaps_within (D : BCP47Language -> Prop) (s : BCP47Languages) :
  subtagMapsWithin D (clearSubtagMaps s).
Proof.
  intros k l H. simpl in H. rewrite !lookup_empty in H.
  repeat destruct H as [H | H]; discriminate.
Qed.

Lemma indexOne_within (D : BCP47Language -> Prop) (desc : string)
  (l : BCP47Language) (s : BCP47Languages) :
  D l -> subtagMapsWithin D s -> subtagMapsWithin D (indexOne desc l s).
Proof.
  intros Hl Hs k l' H. unfold indexOne in H.
  destruct (m_type l); simpl in H;
    try (apply (Hs k l'); exact H);
    repeat match type of H with
           | context [<[?j := _]> _ !! _] =>
               rewrite (lookup_insert _ j k) in H
           end;
    destruct (decide (m_subtag l = k)), (decide (m_tag l = k));
    simpl in H;
    repeat match type of H with
           | _ \/ _ => destruct H as [H | H]
           end;
    first [ injection H as <-; exact Hl
          | apply (Hs k l'); tauto ].
Qed.

Lemma smm_values_In {V : Type} (k : string) (m : StringMultiMap V) (v : V) :
  In v (smm_values k m) -> In v (List.map snd m).
Proof.
  unfold smm_values, mm_values. rewrite !in_map_iff.
  intros ([k' v'] & <- & Hin). apply filter_In in Hin as [Hin _].
  exists (k', v'). auto.
Qed.

Lemma fold_indexOne_within (D : BCP47Language -> Prop) (desc : string)
  (ls : list BCP47Language) (s : BCP47Languages) :
  (forall l, In l ls -> D l) -> subtagMapsWithin D s ->
  subtagMapsWithin D
    (fold_left (fun acc l => indexOne desc l acc) ls s).
Proof.
  revert s. induction ls as [|l ls IH]; intros s Hls Hs; simpl.
  - exact Hs.
  - apply IH.
    + intros l' Hl'. apply Hls. right. exact Hl'.
    + apply indexOne_within; [apply Hls; left; reflexivity | exact Hs].
Qed.

(** After [updateMaps], every record found by subtag or by tag is a record
    of the dataset the object holds. *)
Lemma updateMaps_subtag_maps (s : BCP47Languages) :
  subtagMapsWithin (inDataset s) (updateMaps s).
Proof.
  unfold updateMaps.
  generalize (clearSubtagMaps_within (inDataset s) s).
  generalize (clearSubtagMaps s).
  induction (smm_uniqueKeys (m_datasetByDescription s)) as [|d ds IH];
    intros acc Hacc; simpl.
  - exact Hacc.
  - apply IH. apply fold_indexOne_within; [|exact Hacc].
    intros l Hl. apply (smm_values_In d _ l Hl).
Qed.

(** * Further properties *)

(** ** The parser, line by line *)

(** Every way a step of the parser can return. *)
Ltac break_step H :=
  unfold step, endOfLine, awaitDate, separator, fieldLine, dispatch,
    applyField, continuation, onLanguage, bindR, deref in H;
  repeat case_match; simplify_eq.

Lemma run_invariant (f : string -> QDate) (I : Parser -> Prop) :
  (forall c p p', I p -> step f c p = Returns p' -> I p') ->
  forall data p p', I p -> run f data p = Returns p' -> I p'.
Proof.
  intros Hstep. induction data as [|c data IH]; intros p p' Hp; simpl.
  - intros [= <-]. exact Hp.
  - destruct (step f c p) as [p1|] eqn:Hs; simpl; [|discriminate].
    apply IH. exact (Hstep c p p1 Hp Hs).
Qed.

(** X1: the text after the last line feed is never read: a document and
    the same document followed by a line without line feed give the same
    result. *)
Theorem parse_ignores_unterminated_line (f : string -> QDate)
  (data tail : string) :
  QString.contains newline tail = false ->
  parse f (data ++ tail) = parse f data.
Proof.
  intros Ht. unfold parse, parseFrom. rewrite run_app.
  destruct (run f data newParser) as [p|]; simpl; [|reflexivity].
  rewrite (run_within_line f tail p Ht). simpl.
  unfold finish. simpl. destruct (language p); reflexivity.
Qed.

Lemma parse_ignores_unterminated_line_witness :
  parse IsoDate.fromString
    (Sample.lines ["File-Date: 2021-08-06"; "%%"; "Type: language";
                   "Subtag: en"] ++ "Description: English")
  = parse IsoDate.fromString
      (Sample.lines ["File-Date: 2021-08-06"; "%%"; "Type: language";
                     "Subtag: en"]).
Proof.
  apply (parse_ignores_unterminated_line IsoDate.fromString).
  vm_compute. reflexivity.
Defined.

(** *** Line numbers and errors *)

Lemma step_lineNumber (f : string -> QDate) (c : ascii) (p p' : Parser) :
  step f c p = Returns p' ->
  m_lineNumber p' = m_lineNumber p + (if Ascii.eqb c newline then 1 else 0).
Proof.
  intros H. destruct (Ascii.eqb c newline) eqn:Hc.
  - unfold step in H. rewrite Hc in H.
    unfold endOfLine, awaitDate, separator, fieldLine, dispatch,
      applyField, continuation, onLanguage, bindR, deref in H;
      repeat case_match; simplify_eq; reflexivity.
  - unfold step in H. rewrite Hc in H. injection H as <-. simpl. lia.
Qed.

Lemma run_lineNumber (f : string -> QDate) (data : string) :
  forall p p', run f data p = Returns p' ->
               m_lineNumber p' = m_lineNumber p + countLines data.
Proof.
  induction data as [|c data IH]; intros p p'; simpl.
  - intros [= <-]. lia.
  - destruct (step f c p) as [p1|] eqn:Hs; simpl; [|discriminate].
    intros Hr. rewrite (IH p1 p' Hr), (step_lineNumber f c p p1 Hs). lia.
Qed.

Lemma mm_insert_elem {K V : Type} (ltb : K -> K -> bool) (k : K) (v : V)
  (m : list (K * V)) (e : K * V) :
  In e (mm_insert ltb k v m) <-> e = (k, v) \/ In e m.
Proof.
  induction m as [|[k' v'] m IH]; simpl.
  - intuition.
  - destruct (ltb k' k); simpl; [rewrite IH|]; intuition.
Qed.

Lemma step_errorsWithin (f : string -> QDate) (first : Z) (c : ascii)
  (p p' : Parser) :
  first <= m_lineNumber p ->
  errorsWithin first p -> step f c p = Returns p' -> errorsWithin first p'.
Proof.
  intros Hfirst Hp H n e Hin.
  pose proof (step_lineNumber f c p p' H) as Hn.
  assert (Hold : In (n, e) (errors p) ->
                 first < n <= m_lineNumber p' /\ reportedFlags e).
  { intros Ho. destruct (Hp n e Ho) as [Hr Hf]. split; [|exact Hf].
    rewrite Hn. destruct (Ascii.eqb c newline); lia. }
  unfold step in H. destruct (Ascii.eqb c newline) eqn:Hc.
  - unfold endOfLine, awaitDate, separator, fieldLine, dispatch,
      applyField, continuation, onLanguage, bindR, deref in H;
      repeat case_match; simplify_eq; simpl in *;
      repeat match goal with
             | Hi : In _ (mm_insert _ _ _ _) |- _ =>
                 apply mm_insert_elem in Hi as [[= -> ->] | Hi]
             end;
      first [ apply Hold; assumption
            | split; [lia | unfold reportedFlags; tauto] ].
  - injection H as <-. apply Hold. exact Hin.
Qed.

(** X2: every error that [parse] reports carries the number of a line of
    the document, counted from 1 up to the number of line feeds, and its
    flags are [BAD_FILE_DATE], [EMPTY_NAME], [EMPTY_NAME | EMPTY_VALUE] or
    [UNKNOWN_TAG_TYPE]: [EMPTY_VALUE] is never reported on its own. *)
Theorem parse_errors_within (f : string -> QDate) (data : string)
  (out : Parsed) (n e : Z) :
  parse f data = Returns out ->
  In (n, e) (parsedErrors out) ->
  1 <= n <= countLines data /\ reportedFlags e.
Proof.
  unfold parse, parseFrom. intros H Hin.
  destruct (run f data newParser) as [p|] eqn:Hr; simpl in H; [|discriminate].
  injection H as <-. simpl in Hin. rewrite finish_errors in Hin.
  assert (Hinv : 0 <= m_lineNumber p /\ errorsWithin 0 p).
  { apply (run_invariant f
             (fun q => 0 <= m_lineNumber q /\ errorsWithin 0 q))
      with (data := data) (p := newParser); [| |exact Hr].
    - intros c q q' [Hq Hw] Hs. split.
      + rewrite (step_lineNumber f c q q' Hs).
        destruct (Ascii.eqb c newline); lia.
      + exact (step_errorsWithin f 0 c q q' Hq Hw Hs).
    - split; [simpl; lia | intros n' e' []]. }
  destruct Hinv as [_ Hw]. destruct (Hw n e Hin) as [Hn Hf].
  rewrite (run_lineNumber f data newParser p Hr) in Hn. simpl in Hn.
  split; [lia | exact Hf].
Qed.

Lemma parse_errors_within_witness :
  1 <= 2 <= countLines (Sample.lines ["File-Date: 2021-08-06"; "Name: x"])
  /\ reportedFlags Error.EMPTY_NAME.
Proof.
  apply (parse_errors_within IsoDate.fromString
           (Sample.lines ["File-Date: 2021-08-06"; "Name: x"])
           (mkParsed [] (IsoDate.fromString "2021-08-06") false
              [(2, Error.EMPTY_NAME)])).
  - vm_compute. reflexivity.
  - left. reflexivity.
Defined.

(** *** After the file date and the first separator *)

Lemma step_recordOpen (f : string -> QDate) (c : ascii) (p : Parser) :
  recordOpen p -> exists p', step f c p = Returns p' /\ recordOpen p'.
Proof.
  intros [Hd [l Hl]].
  destruct (step f c p) as [p'|] eqn:H.
  - exists p'. split; [reflexivity|].
    break_step H; simpl in *;
      try (rewrite Hd in *; simpl in *; congruence);
      try congruence; split; eauto.
  - exfalso.
    unfold step, endOfLine, awaitDate, separator, fieldLine, dispatch,
      applyField, continuation, onLanguage, bindR, deref in H.
    simpl in H. rewrite Hd, Hl in H. simpl in H.
    repeat case_match; simplify_eq; simpl in *; congruence.
Qed.

Lemma run_recordOpen (f : string -> QDate) (data : string) :
  forall p, recordOpen p ->
            exists p', run f data p = Returns p' /\ recordOpen p'.
Proof.
  induction data as [|c data IH]; intros p Hp; simpl.
  - eauto.
  - destruct (step_recordOpen f c p Hp) as (p1 & -> & H1). simpl.
    apply IH, H1.
Qed.

(** The first line is accepted as the file date. *)
Lemma run_date_line (f : string -> QDate) (d : string) :
  QString.contains newline d = false ->
  QString.startsWithCI "file-date" d = true ->
  List.length (QString.split colon d) = 2%nat ->
  run f (d ++ String newline "") newParser
  = Returns (mkParser "" UNKNOWN true None 0 [] []
               (f (QString.trimmed (QString.part (QString.split colon d) 1)))
               1).
Proof.
  intros Hn Hs Hc. rewrite run_app, (run_within_line f d _ Hn).
  change (bindR (endOfLine f (setLine d newParser)) Returns = Returns
            (mkParser "" UNKNOWN true None 0 [] []
               (f (QString.trimmed (QString.part (QString.split colon d) 1)))
               1)).
  unfold endOfLine, awaitDate. simpl. rewrite Hs, Hc. reflexivity.
Qed.

Lemma append_string_assoc (a b c : string) : (a ++ b) ++ c = a ++ (b ++ c).
Proof.
  induction a as [|x a IH]; [reflexivity|].
  change (String x ((a ++ b) ++ c) = String x (a ++ (b ++ c))).
  f_equal. exact IH.
Qed.

(** X3: a document that begins with a file-date line (one colon) followed
    by a separator line is parsed to the end, whatever follows: the parser
    does not dereference a null record once the first [%%] has opened
    one. *)
Theorem parse_returns_after_separator (f : string -> QDate)
  (d rest : string) :
  QString.contains newline d = false ->
  QString.startsWithCI "file-date" d = true ->
  List.length (QString.split colon d) = 2%nat ->
  exists out,
    parse f (d ++ String newline ("%%" ++ String newline rest))
    = Returns out.
Proof.
  intros Hn Hs Hc. unfold parse, parseFrom.
  rewrite append_line_feed, run_app, (run_date_line f d Hn Hs Hc).
  change (exists out,
             bindR (run f rest
                      (mkParser "" STARTED true (Some newLanguage) 0 [] []
                         (f (QString.trimmed
                               (QString.part (QString.split colon d) 1)))
                         2))
               (fun p => Returns (mkParsed (languageMap (finish p))
                                    (fileDate (finish p))
                                    (isNil (errors (finish p)))
                                    (errors (finish p))))
             = Returns out).
  destruct (run_recordOpen f rest
              (mkParser "" STARTED true (Some newLanguage) 0 [] []
                 (f (QString.trimmed
                       (QString.part (QString.split colon d) 1))) 2))
    as (p' & -> & _).
  - split; [reflexivity | eexists; reflexivity].
  - eexists. reflexivity.
Qed.

Lemma parse_returns_after_separator_witness :
  exists out,
    parse IsoDate.fromString
      ("File-Date: 2021-08-06"
       ++ String newline ("%%" ++ String newline
            (Sample.lines ["Type: nonsense"; "no colon"; ":::"; "Type: region"])))
    = Returns out.
Proof.
  apply (parse_returns_after_separator IsoDate.fromString
           "File-Date: 2021-08-06"); vm_compute; reflexivity.
Defined.

(** *** The file date is set once *)

Lemma step_dateFound (f : string -> QDate) (c : ascii) (p p' : Parser) :
  step f c p = Returns p' -> dateFound p = true ->
  dateFound p' = true /\ fileDate p' = fileDate p.
Proof.
  intros H Hd. break_step H; simpl in *; try congruence; auto;
    rewrite Hd in *; simpl in *; congruence.
Qed.

Lemma run_dateFound (f : string -> QDate) (data : string) (p p' : Parser) :
  dateFound p = true -> run f data p = Returns p' ->
  dateFound p' = true /\ fileDate p' = fileDate p.
Proof.
  intros Hd Hr.
  apply (run_invariant f
           (fun q => dateFound q = true /\ fileDate q = fileDate p))
    with (data := data) (p := p); [| auto | exact Hr].
  intros c q q' [Hq Hf] Hs.
  destruct (step_dateFound f c q q' Hs Hq) as [H1 H2].
  split; congruence.
Qed.

Lemma finish_fileDate (p : Parser) : fileDate (finish p) = fileDate p.
Proof. unfold finish. destruct (language p); reflexivity. Qed.

(** X4: the file date that [parse] reports is read from the first line
    when that line starts with [file-date] and has one colon: it is the
    date of the trimmed text after the colon, and no later line of the
    document changes it. *)
Theorem parse_file_date_of_first_line (f : string -> QDate)
  (d rest : string) (out : Parsed) :
  QString.contains newline d = false ->
  QString.startsWithCI "file-date" d = true ->
  List.length (QString.split colon d) = 2%nat ->
  parse f (d ++ String newline rest) = Returns out ->
  parsedFileDate out
  = f (QString.trimmed (QString.part (QString.split colon d) 1)).
Proof.
  intros Hn Hs Hc. unfold parse, parseFrom.
  rewrite append_line_feed, run_app, (run_date_line f d Hn Hs Hc).
  simpl. destruct (run f rest _) as [p|] eqn:Hr; simpl; [|discriminate].
  intros [= <-]. simpl. rewrite finish_fileDate.
  apply run_dateFound in Hr as [_ ->]; reflexivity.
Qed.

Lemma parse_file_date_of_first_line_witness :
  parsedFileDate
    (mkParsed [] (IsoDate.fromString "2021-08-06") false
       [(2, Error.EMPTY_NAME)])
  = IsoDate.fromString
      (QString.trimmed
         (QString.part (QString.split colon "File-Date: 2021-08-06") 1)).
Proof.
  apply (parse_file_date_of_first_line IsoDate.fromString
           "File-Date: 2021-08-06"
           (Sample.lines ["File-Date: 2022-03-02"]));
    vm_compute; reflexivity.
Defined.

(** *** What is stored *)

Lemma foldRecord_elem (l : BCP47Language) (m : StringMultiMap BCP47Language)
  (e : string * BCP47Language) :
  In e (foldRecord l m)
  <-> (exists d, In d (m_descriptions l) /\ e = (d, l)) \/ In e m.
Proof.
  unfold foldRecord. revert m.
  induction (m_descriptions l) as [|d ds IH]; intros m; simpl.
  - split; [auto | intros [(d & [] & _) | H]; exact H].
  - rewrite IH. unfold smm_insert. rewrite mm_insert_elem. split.
    + intros [(d' & Hd' & ->) | [-> | H]]; eauto.
    + intros [(d' & [<- | Hd'] & ->) | H]; eauto.
Qed.

Lemma foldRecord_keyed (l : BCP47Language) (m : StringMultiMap BCP47Language) :
  keyedByDescription m -> keyedByDescription (foldRecord l m).
Proof.
  intros Hm d l' Hin. apply foldRecord_elem in Hin as [(d' & Hd' & [= -> ->]) | Hin].
  - exact Hd'.
  - apply Hm, Hin.
Qed.

Lemma step_keyed (f : string -> QDate) (c : ascii) (p p' : Parser) :
  keyedByDescription (languageMap p) -> step f c p = Returns p' ->
  keyedByDescription (languageMap p').
Proof.
  intros Hk H. break_step H; simpl in *; auto using foldRecord_keyed.
Qed.

(** X5: every record that [parse] reports is stored under one of its own
    descriptions; a record that got no description is therefore not
    reported at all. *)
Theorem parse_keyed_by_description (f : string -> QDate) (data : string)
  (out : Parsed) (d : string) (l : BCP47Language) :
  parse f data = Returns out ->
  In (d, l) (parsedLanguages out) ->
  In d (m_descriptions l) /\ m_descriptions l <> [].
Proof.
  unfold parse, parseFrom. intros H Hin.
  destruct (run f data newParser) as [p|] eqn:Hr; simpl in H; [|discriminate].
  injection H as <-. simpl in Hin.
  assert (Hk : keyedByDescription (languageMap (finish p))).
  { assert (Hp : keyedByDescription (languageMap p)).
    { apply (run_invariant f (fun q => keyedByDescription (languageMap q)))
        with (data := data) (p := newParser); [| |exact Hr].
      - intros c q q'. apply step_keyed.
      - intros d' l' []. }
    unfold finish. destruct (language p); simpl; auto using foldRecord_keyed. }
  pose proof (Hk d l Hin) as Hd. split; [exact Hd|].
  intros He. rewrite He in Hd. destruct Hd.
Qed.

Lemma parse_keyed_by_description_witness :
  In "English" (m_descriptions Sample.english)
  /\ m_descriptions Sample.english <> [].
Proof.
  apply (parse_keyed_by_description IsoDate.fromString
           (Sample.lines ["File-Date: 2021-08-06"; "%%"; "Type: language";
                          "Subtag: en"; "Description: English"; "%%";
                          "Type: language"; "Subtag: zz"])
           (mkParsed [("English", Sample.english)]
              (IsoDate.fromString "2021-08-06") true [])
           "English" Sample.english).
  - vm_compute. reflexivity.
  - left. reflexivity.
Defined.

(** ** A registry written in the usual way *)

Lemma split_no_sep (sep : ascii) (v : string) :
  QString.contains sep v = false -> QString.split sep v = [v].
Proof.
  induction v as [|c v IH]; [reflexivity|]. simpl.
  intros H. apply orb_false_iff in H as [Hc Hv].
  rewrite Hc, (IH Hv). reflexivity.
Qed.

Lemma split_at_sep (sep : ascii) (a b : string) :
  QString.contains sep a = false ->
  QString.split sep (a ++ String sep b) = a :: QString.split sep b.
Proof.
  induction a as [|c a IH].
  - intros _. change (QString.split sep (String sep b) = "" :: QString.split sep b).
    simpl. rewrite Ascii.eqb_refl. reflexivity.
  - intros H. simpl in H. apply orb_false_iff in H as [Hc Ha].
    change (QString.split sep (String c (a ++ String sep b))
            = String c a :: QString.split sep b).
    simpl. rewrite Hc, (IH Ha). reflexivity.
Qed.

Lemma contains_app (c : ascii) (a b : string) :
  QString.contains c (a ++ b) = QString.contains c a || QString.contains c b.
Proof.
  induction a as [|x a IH]; [reflexivity|].
  change (QString.contains c (String x (a ++ b))
          = QString.contains c (String x a) || QString.contains c b).
  simpl. rewrite IH. apply orb_assoc.
Qed.

Lemma fieldLineText_split (name v : string) :
  QString.contains colon name = false ->
  QString.contains colon v = false ->
  QString.split colon (fieldLineText name v) = [name; String " " v].
Proof.
  intros Hn Hv. unfold fieldLineText. rewrite (split_at_sep colon _ _ Hn).
  rewrite split_no_sep; [reflexivity | exact Hv].
Qed.

Lemma eq_separator_colon (s : string) :
  QString.contains colon s = true -> QString.eq s "%%" = false.
Proof.
  intros H. destruct (QString.eq s "%%") eqn:E; [|reflexivity].
  apply String.eqb_eq in E. subst s. discriminate.
Qed.

Lemma fieldLineText_contains_colon (name v : string) :
  QString.contains colon (fieldLineText name v) = true.
Proof.
  unfold fieldLineText. rewrite contains_app.
  change (QString.contains colon (String colon (String " " v))) with true.
  apply orb_true_r.
Qed.

(** The end of a line [name: value] of an open record. *)
Lemma endOfLine_field (f : string -> QDate) (p : Parser) (name v : string) :
  dateFound p = true ->
  line p = fieldLineText name v ->
  QString.contains colon name = false ->
  QString.isEmpty name = false ->
  isType (QString.trimmed name) = true ->
  valueOk v = true ->
  endOfLine f p
  = applyField f (QString.toLower (QString.toLower (QString.trimmed name)))
      (QString.trimmed v) (setLineNumber (m_lineNumber p + 1) p).
Proof.
  intros Hd Hl Hn He Ht Hv. unfold valueOk in Hv.
  apply andb_prop in Hv as [Hv Hv3]. apply andb_prop in Hv as [Hv1 Hv2].
  apply negb_true_iff in Hv1, Hv2, Hv3.
  unfold endOfLine.
  change (dateFound (setLineNumber (m_lineNumber p + 1) p)) with (dateFound p).
  change (line (setLineNumber (m_lineNumber p + 1) p)) with (line p).
  rewrite Hd, Hl. cbv beta iota zeta. change (negb true) with false. cbv iota.
  rewrite (eq_separator_colon _ (fieldLineText_contains_colon name v)).
  rewrite fieldLineText_contains_colon.
  unfold fieldLine.
  change (line (setLineNumber (m_lineNumber p + 1) p)) with (line p).
  rewrite Hl. unfold QString.splitSkipEmpty.
  rewrite (fieldLineText_split name v Hn Hv1).
  simpl List.filter. rewrite He. cbv beta iota zeta.
  change (negb false) with true. cbv iota.
  rewrite Ht.
  change (QString.trimmed (String " " v)) with (QString.trimmed v).
  rewrite Hv3.
  change (state (setLineNumber (m_lineNumber p + 1) p)) with (state p).
  destruct (negb (State_eqb (state p) COMMENT)); reflexivity.
Qed.

Lemma valueOk_newline (v : string) :
  valueOk v = true -> QString.contains newline v = false.
Proof.
  unfold valueOk. intros H. apply andb_prop in H as [H _].
  apply andb_prop in H as [_ H]. apply negb_true_iff in H. exact H.
Qed.

Lemma fieldLineText_newline (name v : string) :
  QString.contains newline name = false ->
  QString.contains newline v = false ->
  QString.contains newline (fieldLineText name v) = false.
Proof.
  intros Hn Hv. unfold fieldLineText. rewrite contains_app, Hn.
  change (QString.contains newline (String colon (String " " v)))
    with (QString.contains newline v).
  exact Hv.
Qed.

(** A whole line, from an empty [line] to the handling of its end. *)
Lemma run_line (f : string -> QDate) (text : string) (p : Parser) :
  QString.contains newline text = false ->
  line p = "" ->
  run f (text ++ lineFeed) p = endOfLine f (setLine text p).
Proof.
  intros Hn Hl. rewrite run_app, (run_within_line f text p Hn), Hl.
  change (bindR (endOfLine f (setLine text p)) Returns
          = endOfLine f (setLine text p)).
  destruct (endOfLine f (setLine text p)); reflexivity.
Qed.











(** ** The index after [updateMaps] *)

Lemma clearSubtagMaps_sound (D : BCP47Language -> Prop) (s : BCP47Languages) :
  indexSound D (clearSubtagMaps s).
Proof.
  intros k l. simpl. rewrite !lookup_empty.
  repeat apply conj; discriminate.
Qed.

Lemma indexOne_sound (D : BCP47Language -> Prop) (desc : string)
  (l : BCP47Language) (s : BCP47Languages) :
  D l -> indexSound D s -> indexSound D (indexOne desc l s).
Proof.
  intros Hl Hs k l'.
  destruct (Hs k l') as (H1 & H2 & H3 & H4 & H5 & H6 & H7).
  unfold indexOne. destruct (m_type l) eqn:Ht; simpl;
    repeat apply conj; try assumption;
    intros H; apply lookup_insert_Some in H as [[<- <-] | [_ H]];
    auto.
Qed.

Lemma fold_indexOne_sound (D : BCP47Language -> Prop) (desc : string)
  (ls : list BCP47Language) (s : BCP47Languages) :
  (forall l, In l ls -> D l) -> indexSound D s ->
  indexSound D (fold_left (fun acc l => indexOne desc l acc) ls s).
Proof.
  revert s. induction ls as [|l ls IH]; intros s Hls Hs; simpl.
  - exact Hs.
  - apply IH.
    + intros l' Hl'. apply Hls. right. exact Hl'.
    + apply indexOne_sound; [apply Hls; left; reflexivity | exact Hs].
Qed.

Lemma updateMaps_indexSound (s : BCP47Languages) :
  indexSound (inDataset s) (updateMaps s).
Proof.
  unfold updateMaps.
  generalize (clearSubtagMaps_sound (inDataset s) s).
  generalize (clearSubtagMaps s).
  induction (smm_uniqueKeys (m_datasetByDescription s)) as [|d ds IH];
    intros acc Hacc; simpl.
  - exact Hacc.
  - apply IH. apply fold_indexOne_sound; [|exact Hacc].
    intros l Hl. apply (smm_values_In d _ l Hl).
Qed.

(** X7: after [updateMaps], every record that one of the seven maps by
    subtag or tag holds is a record of the dataset, has the type of that
    map, and is found under its own subtag, or under its own tag in the
    grandfathered and redundant maps. *)
Theorem updateMaps_sound (s : BCP47Languages) :
  indexSound (inDataset s) (updateMaps s).
Proof. exact (updateMaps_indexSound s). Qed.

(** *** Every record of the dataset is registered *)

Lemma string_compare_refl (a : string) : String.compare a a = Eq.
Proof.
  pose proof (String.compare_antisym a a) as H.
  destruct (String.compare a a); [reflexivity | discriminate ..].
Qed.

Lemma string_ltb_irrefl (a : string) : String.ltb a a = false.
Proof. unfold String.ltb. rewrite string_compare_refl. reflexivity. Qed.

Lemma sameKey_string (a b : string) :
  sameKey String.ltb a b = true <-> a = b.
Proof.
  unfold sameKey, String.ltb. split.
  - intros H. apply andb_prop in H as [H1 H2].
    pose proof (String.compare_antisym a b) as Ha.
    destruct (String.compare a b) eqn:E, (String.compare b a) eqn:E2;
      simpl in *; try discriminate.
    apply String.compare_eq_iff. exact E.
  - intros ->. rewrite string_compare_refl. reflexivity.
Qed.

Lemma smm_values_elem {V : Type} (k : string) (m : StringMultiMap V) (v : V) :
  In v (smm_values k m) <-> In (k, v) m.
Proof.
  unfold smm_values, mm_values. rewrite in_map_iff. split.
  - intros ([k' v'] & <- & Hin). apply filter_In in Hin as [Hin Hk].
    apply sameKey_string in Hk. simpl in Hk. subst k'. exact Hin.
  - intros Hin. exists (k, v). split; [reflexivity|].
    apply filter_In. split; [exact Hin | apply sameKey_string; reflexivity].
Qed.

Lemma smm_uniqueKeys_head {V : Type} (k : string) (v : V)
  (m : StringMultiMap V) :
  In k (smm_uniqueKeys ((k, v) :: m)).
Proof.
  revert k v. induction m as [|[k' v'] m IH]; intros k v.
  - left. reflexivity.
  - change (In k (if sameKey String.ltb k k'
                  then smm_uniqueKeys ((k', v') :: m)
                  else k :: smm_uniqueKeys ((k', v') :: m))).
    destruct (sameKey String.ltb k k') eqn:E.
    + apply sameKey_string in E. subst k'. apply IH.
    + left. reflexivity.
Qed.

Lemma smm_uniqueKeys_elem {V : Type} (m : StringMultiMap V) (k : string)
  (v : V) :
  In (k, v) m -> In k (smm_uniqueKeys m).
Proof.
  induction m as [|[k' v'] m IH]; [intros []|].
  intros [[= -> ->] | Hin].
  - apply smm_uniqueKeys_head.
  - specialize (IH Hin). destruct m as [|[k2 v2] m]; [destruct Hin|].
    change (In k (if sameKey String.ltb k' k2
                  then smm_uniqueKeys ((k2, v2) :: m)
                  else k' :: smm_uniqueKeys ((k2, v2) :: m))).
    destruct (sameKey String.ltb k' k2); [exact IH | right; exact IH].
Qed.

Lemma hasKey_insert (m : gmap string BCP47Language) (j k : string)
  (l : BCP47Language) :
  hasKey (<[j := l]> m) k = true <-> j = k \/ hasKey m k = true.
Proof.
  rewrite !hasKey_true. rewrite lookup_insert_is_Some'. tauto.
Qed.

Lemma indexOne_registers (desc : string) (l : BCP47Language)
  (s : BCP47Languages) :
  registered (indexOne desc l s) l.
Proof.
  unfold registered, indexOne, isPrimaryLanguage, isExtLang, isRegion,
    isScript, isVariant, isGrandfathered, isRedundant.
  destruct (m_type l) eqn:Ht; simpl; rewrite ?Ht; simpl;
    try exact I; apply hasKey_insert; left; reflexivity.
Qed.

Lemma indexOne_keeps (desc : string) (l l' : BCP47Language)
  (s : BCP47Languages) :
  registered s l' -> registered (indexOne desc l s) l'.
Proof.
  unfold registered, indexOne, isPrimaryLanguage, isExtLang, isRegion,
    isScript, isVariant, isGrandfathered, isRedundant.
  destruct (m_type l'), (m_type l); simpl; auto;
    intros H; apply hasKey_insert; right; exact H.
Qed.

Lemma fold_indexOne_keeps (desc : string) (ls : list BCP47Language)
  (l' : BCP47Language) (s : BCP47Languages) :
  registered s l' ->
  registered (fold_left (fun acc l => indexOne desc l acc) ls s) l'.
Proof.
  revert s. induction ls as [|l ls IH]; intros s H; simpl; [exact H|].
  apply IH, indexOne_keeps, H.
Qed.

Lemma fold_indexOne_registers (desc : string) (ls : list BCP47Language)
  (l' : BCP47Language) (s : BCP47Languages) :
  In l' ls ->
  registered (fold_left (fun acc l => indexOne desc l acc) ls s) l'.
Proof.
  revert s. induction ls as [|l ls IH]; intros s; [intros []|].
  intros [-> | Hin]; simpl.
  - apply fold_indexOne_keeps, indexOne_registers.
  - apply IH, Hin.
Qed.

Lemma updateMaps_registers (s : BCP47Languages) (d : string)
  (l : BCP47Language) :
  In (d, l) (m_datasetByDescription s) -> registered (updateMaps s) l.
Proof.
  intros Hin. unfold updateMaps.
  pose proof (smm_uniqueKeys_elem _ d l Hin) as Hk.
  apply smm_values_elem in Hin.
  revert Hk. generalize (clearSubtagMaps s).
  induction (smm_uniqueKeys (m_datasetByDescription s)) as [|k ks IH];
    intros acc; [intros []|].
  intros [-> | Hk]; simpl.
  - clear IH. 
    generalize (fold_indexOne_registers d _ l acc Hin).
    generalize (fold_left (fun acc' l0 => indexOne d l0 acc')
                  (smm_values d (m_datasetByDescription s)) acc).
    induction ks as [|k ks IH]; intros acc' H; simpl; [exact H|].
    apply IH, fold_indexOne_keeps, H.
  - apply IH, Hk.
Qed.



(** ** The dataset by description *)

Lemma filter_mm_insert_out {K V : Type} (ltb : K -> K -> bool)
  (g : K * V -> bool) (j : K) (v : V) (m : list (K * V)) :
  g (j, v) = false ->
  List.filter g (mm_insert ltb j v m) = List.filter g m.
Proof.
  intros Hg. induction m as [|[k' v'] m IH].
  - simpl. rewrite Hg. reflexivity.
  - change (List.filter g (if ltb k' j then (k', v') :: mm_insert ltb j v m
                           else (j, v) :: (k', v') :: m)
            = List.filter g ((k', v') :: m)).
    destruct (ltb k' j).
    + change (List.filter g ((k', v') :: mm_insert ltb j v m))
        with (if g (k', v') then (k', v') :: List.filter g (mm_insert ltb j v m)
              else List.filter g (mm_insert ltb j v m)).
      rewrite IH. reflexivity.
    + change (List.filter g ((j, v) :: (k', v') :: m))
        with (if g (j, v) then (j, v) :: List.filter g ((k', v') :: m)
              else List.filter g ((k', v') :: m)).
      rewrite Hg. reflexivity.
Qed.

Lemma filter_mm_insert_in {K V : Type} (ltb : K -> K -> bool)
  (g : K * V -> bool) (j : K) (v : V) (m : list (K * V)) :
  g (j, v) = true ->
  (forall k' v', ltb k' j = true -> g (k', v') = false) ->
  List.filter g (mm_insert ltb j v m) = (j, v) :: List.filter g m.
Proof.
  intros Hg Hlt. induction m as [|[k' v'] m IH].
  - simpl. rewrite Hg. reflexivity.
  - change (List.filter g (if ltb k' j then (k', v') :: mm_insert ltb j v m
                           else (j, v) :: (k', v') :: m)
            = (j, v) :: List.filter g ((k', v') :: m)).
    destruct (ltb k' j) eqn:E.
    + change (List.filter g ((k', v') :: mm_insert ltb j v m))
        with (if g (k', v') then (k', v') :: List.filter g (mm_insert ltb j v m)
              else List.filter g (mm_insert ltb j v m)).
      change (List.filter g ((k', v') :: m))
        with (if g (k', v') then (k', v') :: List.filter g m
              else List.filter g m).
      rewrite (Hlt k' v' E). exact IH.
    + change (List.filter g ((j, v) :: (k', v') :: m))
        with (if g (j, v) then (j, v) :: List.filter g ((k', v') :: m)
              else List.filter g ((k', v') :: m)).
      rewrite Hg. reflexivity.
Qed.

Lemma smm_values_insert_same {V : Type} (k : string) (v : V)
  (m : StringMultiMap V) :
  smm_values k (smm_insert k v m) = v :: smm_values k m.
Proof.
  unfold smm_values, smm_insert, mm_values.
  rewrite filter_mm_insert_in; [reflexivity | |].
  - apply sameKey_string. reflexivity.
  - intros k' v' E. unfold sameKey. simpl. rewrite E. reflexivity.
Qed.

Lemma smm_values_insert_other {V : Type} (k j : string) (v : V)
  (m : StringMultiMap V) :
  j <> k -> smm_values k (smm_insert j v m) = smm_values k m.
Proof.
  intros Hne. unfold smm_values, smm_insert, mm_values.
  rewrite filter_mm_insert_out; [reflexivity|].
  destruct (sameKey String.ltb (j, v).1 k) eqn:E; [|reflexivity].
  apply sameKey_string in E. contradiction.
Qed.

(** X9: a record added under a description is the first of the records
    that [fromDescription] returns for that description, in front of the
    ones that were there; the records of every other description are as
    before. *)
Theorem fromDescription_addLanguage (s : BCP47Languages) (d k : string)
  (l : BCP47Language) :
  fromDescription (addLanguage d l s) k
  = if decide (d = k) then l :: fromDescription s k else fromDescription s k.
Proof.
  unfold fromDescription, addLanguage. simpl.
  destruct (decide (d = k)) as [<- | Hne].
  - apply smm_values_insert_same.
  - apply smm_values_insert_other, Hne.
Qed.

(** ** Loading records *)




Lemma updateMaps_dataset (s : BCP47Languages) :
  m_datasetByDescription (updateMaps s) = m_datasetByDescription s.
Proof.
  unfold updateMaps.
  assert (Hone : forall d l acc,
             m_datasetByDescription (indexOne d l acc)
             = m_datasetByDescription acc).
  { intros d l acc. unfold indexOne. destruct (m_type l); reflexivity. }
  assert (Hin : forall d ls acc,
             m_datasetByDescription
               (fold_left (fun acc' l => indexOne d l acc') ls acc)
             = m_datasetByDescription acc).
  { intros d ls. induction ls as [|l ls IH]; intros acc; simpl;
      [reflexivity | rewrite IH; apply Hone]. }
  assert (Hout : forall (g : string -> list BCP47Language) ks acc,
             m_datasetByDescription
               (fold_left
                  (fun acc0 desc =>
                     fold_left (fun acc' l => indexOne desc l acc') (g desc)
                       acc0) ks acc)
             = m_datasetByDescription acc).
  { intros g ks. induction ks as [|k ks IH]; intros acc; simpl;
      [reflexivity | rewrite IH; apply Hin]. }
  rewrite Hout. reflexivity.
Qed.



(** ** [typeFromString] *)

(** [typeFromString] answers [BAD_TAG] exactly for the strings that are a
    key of none of the seven maps by subtag or tag, and [LANGUAGE] exactly
    for the keys of the language map. *)
Lemma typeFromString_cases (s : BCP47Languages) (value : string) :
  (typeFromString s value = BAD_TAG
   <-> isPrimaryLanguage s value = false /\ isExtLang s value = false
       /\ isVariant s value = false /\ isRegion s value = false
       /\ isScript s value = false /\ isGrandfathered s value = false
       /\ isRedundant s value = false)
  /\ (typeFromString s value = LANGUAGE <-> isPrimaryLanguage s value = true).
Proof.
  unfold typeFromString.
  destruct (isPrimaryLanguage s value), (isExtLang s value),
    (isVariant s value), (isRegion s value), (isScript s value),
    (isGrandfathered s value), (isRedundant s value);
    split; split; intros H; try discriminate; try tauto;
    repeat match goal with H : _ /\ _ |- _ => destruct H end;
    discriminate.
Qed.

Lemma hasKey_lookup (m : gmap string BCP47Language) (k : string) :
  hasKey m k = true -> exists l, m !! k = Some l.
Proof. intros H. apply hasKey_true in H as [l Hl]. eauto. Qed.

Lemma inDataset_elem (s : BCP47Languages) (l : BCP47Language) :
  inDataset s l -> exists d, In (d, l) (m_datasetByDescription s).
Proof.
  unfold inDataset. rewrite in_map_iff. intros ([d l'] & <- & Hin). eauto.
Qed.

(** X11: on an index that [updateMaps] has built, [typeFromString] answers
    from the dataset. A type other than [BAD_TAG] is the type of a record
    of the dataset that has the string as its subtag (as its tag, for a
    grandfathered or redundant record); and the answer is not [BAD_TAG]
    whenever the dataset has such a record of any type but [BAD_TAG]. *)
Theorem typeFromString_updated (s : BCP47Languages) (value : string) :
  (forall t, typeFromString (updateMaps s) value = t -> t <> BAD_TAG ->
             exists d l, In (d, l) (m_datasetByDescription s)
                         /\ m_type l = t /\ keyOf l = value)
  /\ ((exists d l, In (d, l) (m_datasetByDescription s)
                   /\ m_type l <> BAD_TAG /\ keyOf l = value) ->
      typeFromString (updateMaps s) value <> BAD_TAG).
Proof.
  split.
  - intros t Ht Hne. unfold typeFromString in Ht.
    destruct (isPrimaryLanguage (updateMaps s) value) eqn:E1.
    { subst t. apply hasKey_lookup in E1 as (l & Hl).
      destruct (updateMaps_indexSound s value l)
        as (H1 & H2 & H3 & H4 & H5 & H6 & H7).
      destruct (H1 Hl) as (Hin & Hty & Hk).
      destruct (inDataset_elem s l Hin) as (d & Hd).
      exists d, l. unfold keyOf. rewrite Hty. auto. }
    destruct (isExtLang (updateMaps s) value) eqn:E2.
    { subst t. apply hasKey_lookup in E2 as (l & Hl).
      destruct (updateMaps_indexSound s value l)
        as (H1 & H2 & H3 & H4 & H5 & H6 & H7).
      destruct (H2 Hl) as (Hin & Hty & Hk).
      destruct (inDataset_elem s l Hin) as (d & Hd).
      exists d, l. unfold keyOf. rewrite Hty. auto. }
    destruct (isVariant (updateMaps s) value) eqn:E3.
    { subst t. apply hasKey_lookup in E3 as (l & Hl).
      destruct (updateMaps_indexSound s value l)
        as (H1 & H2 & H3 & H4 & H5 & H6 & H7).
      destruct (H5 Hl) as (Hin & Hty & Hk).
      destruct (inDataset_elem s l Hin) as (d & Hd).
      exists d, l. unfold keyOf. rewrite Hty. auto. }
    destruct (isRegion (updateMaps s) value) eqn:E4.
    { subst t. apply hasKey_lookup in E4 as (l & Hl).
      destruct (updateMaps_indexSound s value l)
        as (H1 & H2 & H3 & H4 & H5 & H6 & H7).
      destruct (H3 Hl) as (Hin & Hty & Hk).
      destruct (inDataset_elem s l Hin) as (d & Hd).
      exists d, l. unfold keyOf. rewrite Hty. auto. }
    destruct (isScript (updateMaps s) value) eqn:E5.
    { subst t. apply hasKey_lookup in E5 as (l & Hl).
      destruct (updateMaps_indexSound s value l)
        as (H1 & H2 & H3 & H4 & H5 & H6 & H7).
      destruct (H4 Hl) as (Hin & Hty & Hk).
      destruct (inDataset_elem s l Hin) as (d & Hd).
      exists d, l. unfold keyOf. rewrite Hty. auto. }
    destruct (isGrandfathered (updateMaps s) value) eqn:E6.
    { subst t. apply hasKey_lookup in E6 as (l & Hl).
      destruct (updateMaps_indexSound s value l)
        as (H1 & H2 & H3 & H4 & H5 & H6 & H7).
      destruct (H6 Hl) as (Hin & Hty & Hk).
      destruct (inDataset_elem s l Hin) as (d & Hd).
      exists d, l. unfold keyOf. rewrite Hty. auto. }
    destruct (isRedundant (updateMaps s) value) eqn:E7.
    { subst t. apply hasKey_lookup in E7 as (l & Hl).
      destruct (updateMaps_indexSound s value l)
        as (H1 & H2 & H3 & H4 & H5 & H6 & H7).
      destruct (H7 Hl) as (Hin & Hty & Hk).
      destruct (inDataset_elem s l Hin) as (d & Hd).
      exists d, l. unfold keyOf. rewrite Hty. auto. }
    congruence.
  - intros (d & l & Hin & Hty & Hk).
    pose proof (updateMaps_registers s d l Hin) as Hreg.
    unfold registered in Hreg. unfold keyOf in Hk. unfold typeFromString.
    destruct (m_type l); try congruence; rewrite Hk in Hreg;
      repeat match goal with
             | |- context [if ?b then _ else _] =>
                 destruct b eqn:?; try discriminate
             end; congruence.
Qed.

Lemma typeFromString_updated_witness :
  typeFromString (updateMaps (addLanguage "Afar" Sample.afar emptyLanguages))
    "aa" <> BAD_TAG.
Proof.
  apply (typeFromString_updated
           (addLanguage "Afar" Sample.afar emptyLanguages) "aa").
  exists "Afar", Sample.afar. split; [left; reflexivity|].
  split; [discriminate | reflexivity].
Defined.

(** ** Records with a prefix *)

Lemma qmapPairs_elem {V : Type} (m : gmap string V) (k : string) (v : V) :
  In (k, v) (qmapPairs m) <-> m !! k = Some v.
Proof.
  unfold qmapPairs. rewrite <- elem_of_map_to_list.
  induction (map_to_list m) as [|[k' v'] kvs IH]; simpl.
  - rewrite elem_of_nil. tauto.
  - unfold smm_insert. rewrite mm_insert_elem, IH, elem_of_cons.
    split; (intros [H | H]; [left | right]); congruence.
Qed.

Lemma qmapValues_elem {V : Type} (m : gmap string V) (v : V) :
  In v (qmapValues m) <-> exists k, m !! k = Some v.
Proof.
  unfold qmapValues. rewrite in_map_iff. split.
  - intros ([k v'] & <- & Hin). exists k. apply qmapPairs_elem, Hin.
  - intros (k & Hk). exists (k, v). split; [reflexivity|].
    apply qmapPairs_elem, Hk.
Qed.

Lemma descriptionsWithPrefix_elem (subtag : string)
  (values : list BCP47Language) (d : string) :
  In d (descriptionsWithPrefix subtag values)
  <-> exists l, In l values /\ In subtag (m_prefix l) /\ description l = d.
Proof.
  unfold descriptionsWithPrefix. rewrite in_map_iff. split.
  - intros (l & <- & Hin). apply filter_In in Hin as [Hin Hp].
    exists l. split; [exact Hin|]. split; [|reflexivity].
    apply existsb_exists in Hp as (p & Hp & He).
    apply String.eqb_eq in He. subst p. exact Hp.
  - intros (l & Hin & Hp & <-). exists l. split; [reflexivity|].
    apply filter_In. split; [exact Hin|].
    apply existsb_exists. exists subtag. split; [exact Hp|].
    apply String.eqb_refl.
Qed.

(** X12: [extlangsWithPrefix] and [variantsWithPrefix] list exactly the
    first descriptions of the records of the extlang map, and of the
    variant map, that have the subtag among their prefixes; for a record
    without description that is the empty string. *)
Theorem withPrefix_elem (s : BCP47Languages) (subtag d : string) :
  (In d (extlangsWithPrefix s subtag)
   <-> exists k l, m_extlangBySubtag s !! k = Some l
                   /\ In subtag (m_prefix l) /\ description l = d)
  /\ (In d (variantsWithPrefix s subtag)
      <-> exists k l, m_variantBySubtag s !! k = Some l
                      /\ In subtag (m_prefix l) /\ description l = d).
Proof.
  unfold extlangsWithPrefix, variantsWithPrefix.
  rewrite !descriptionsWithPrefix_elem.
  split; split.
  - intros (l & Hin & H). apply qmapValues_elem in Hin as (k & Hk). eauto.
  - intros (k & l & Hk & H). exists l. split; [|exact H].
    apply qmapValues_elem. eauto.
  - intros (l & Hin & H). apply qmapValues_elem in Hin as (k & Hk). eauto.
  - intros (k & l & Hk & H). exists l. split; [|exact H].
    apply qmapValues_elem. eauto.
Qed.

(** ** [getUniqueLanguages] *)

Lemma getUnique_fold {P : Type} `{EqDecision P} (vs acc : list P) :
  let r := fold_left
             (fun uniqueLanguages l =>
                if bool_decide (l ∈ uniqueLanguages) then uniqueLanguages
                else (uniqueLanguages ++ [l])%list) vs acc in
  (NoDup acc -> NoDup r)
  /\ (forall x, x ∈ r <-> x ∈ acc \/ x ∈ vs).
Proof.
  revert acc. induction vs as [|v vs IH]; intros acc; simpl.
  - split; [auto|]. intros x. rewrite elem_of_nil. tauto.
  - case_bool_decide as Hv.
    + destruct (IH acc) as [Hn He]. split; [exact Hn|].
      intros x. rewrite He, elem_of_cons. split; [tauto|].
      intros [H | [-> | H]]; auto.
    + destruct (IH (acc ++ [v])%list) as [Hn He]. split.
      * intros Ha. apply Hn. apply NoDup_app. split; [exact Ha|].
        split; [|apply NoDup_singleton].
        intros x Hx Hx'. apply list_elem_of_singleton in Hx'. subst x.
        contradiction.
      * intros x. rewrite He, elem_of_app, list_elem_of_singleton, elem_of_cons.
        tauto.
Qed.

(** X13: [getUniqueLanguages] returns every pointer of the dataset, and
    each one once, however many descriptions it is stored under. *)
Theorem getUniqueLanguages_unique {P : Type} `{EqDecision P}
  (dataset : StringMultiMap P) :
  NoDup (getUniqueLanguages dataset)
  /\ (forall x, x ∈ getUniqueLanguages dataset
                <-> exists d, (d, x) ∈ dataset).
Proof.
  unfold getUniqueLanguages.
  destruct (getUnique_fold (mm_allValues dataset) []) as [Hn He].
  split; [apply Hn, NoDup_nil_2|].
  intros x. rewrite He, elem_of_nil. unfold mm_allValues.
  rewrite list_elem_of_In, in_map_iff. split.
  - intros [[] | ([d x'] & <- & Hin)]. exists d.
    apply list_elem_of_In. exact Hin.
  - intros (d & Hin). right. exists (d, x). split; [reflexivity|].
    apply list_elem_of_In. exact Hin.
Qed.

(** ** More on [iainFileParsed] *)

(** X14: the file date the object holds never goes back, and delivering
    the same parsed registry a second time changes nothing any more. After
    a replacement, a registry with the same date, with or without errors,
    causes no write and no signal either. *)
Theorem iainFileParsed_again (s : BCP47Languages)
  (languages : StringMultiMap BCP47Language) (fileDate : QDate)
  (noErrors noErrors' : bool) :
  let s' := fst (iainFileParsed s languages fileDate noErrors) in
  m_fileDate s <= m_fileDate s'
  /\ fst (iainFileParsed s' languages fileDate noErrors) = s'
  /\ (s' <> s ->
      iainFileParsed s' languages fileDate noErrors' = (s', [])).
Proof.
  unfold iainFileParsed, QDate_lt.
  destruct (Z.ltb_spec (m_fileDate s) fileDate) as [Hlt | Hge].
  - destruct noErrors; simpl.
    + rewrite Z.ltb_irrefl. repeat split; try lia; reflexivity.
    + apply Z.ltb_lt in Hlt as Hlt'. rewrite Hlt'. simpl.
      repeat split; try lia; congruence.
  - simpl. apply Z.ltb_ge in Hge as Hge'. rewrite Hge'. simpl.
    repeat split; try lia; congruence.
Qed.

Lemma iainFileParsed_again_witness :
  let s' := fst (iainFileParsed Sample.index [("Afar", Sample.afar)]
                   (IsoDate.fromString "2022-03-02") true) in
  iainFileParsed s' [("Afar", Sample.afar)]
    (IsoDate.fromString "2022-03-02") false = (s', []).
Proof.
  intros s'.
  apply (iainFileParsed_again Sample.index [("Afar", Sample.afar)]
           (IsoDate.fromString "2022-03-02") true false).
  vm_compute. discriminate.
Defined.

(** ** The tag builders on an updated index *)

Lemma updateMaps_language_key (s : BCP47Languages) (k : string)
  (l : BCP47Language) :
  m_languageBySubtag (updateMaps s) !! k = Some l -> m_subtag l = k.
Proof.
  intros H. destruct (updateMaps_indexSound s k l) as (H1 & _).
  apply H1 in H. tauto.
Qed.

Lemma updateMaps_region_key (s : BCP47Languages) (k : string)
  (l : BCP47Language) :
  m_regionBySubtag (updateMaps s) !! k = Some l -> m_subtag l = k.
Proof.
  intros H. destruct (updateMaps_indexSound s k l) as (_ & _ & H3 & _).
  apply H3 in H. tauto.
Qed.

(** X15: on an index that [updateMaps] has built, [languageTag] returns
    the subtags it is given: the language subtag alone when the region is
    empty, both joined by a dash when both are registered, and the empty
    string when the language, or a region that is given, is not
    registered. *)
Theorem languageTag_updated (s0 : BCP47Languages)
  (languageName regionName : string) :
  let s := updateMaps s0 in
  languageTag s languageName regionName
  = Returns
      (if isPrimaryLanguage s languageName then
         if QString.isEmpty regionName then languageName
         else if isRegion s regionName
              then languageName ++ "-" ++ regionName
              else ""
       else "").
Proof.
  intros s. unfold languageTag, isPrimaryLanguage, isRegion, hasKey.
  destruct (m_languageBySubtag s !! languageName) as [t|] eqn:Ht.
  - apply updateMaps_language_key in Ht as ->.
    destruct (QString.isEmpty regionName); [reflexivity|].
    destruct (m_regionBySubtag s !! regionName) as [r|] eqn:Hr;
      [|reflexivity].
    apply updateMaps_region_key in Hr as ->. reflexivity.
  - destruct (QString.isEmpty regionName); [reflexivity|].
    destruct (m_regionBySubtag s !! regionName); reflexivity.
Qed.

Lemma scriptTag_return (s : BCP47Languages)
  (languageName scriptName r : string) :
  scriptTag s languageName scriptName = Returns r
  <-> (m_languageBySubtag s !! languageName = None
       /\ m_scriptBySubtag s !! scriptName = None /\ r = "")
      \/ (exists t sc p ps,
             m_languageBySubtag s !! languageName = Some t
             /\ m_scriptBySubtag s !! scriptName = Some sc
             /\ m_prefix t = p :: ps
             /\ r = p ++ "-" ++ m_subtag sc ++ "-" ++ m_subtag t).
Proof.
  unfold scriptTag.
  destruct (m_languageBySubtag s !! languageName) as [t|],
    (m_scriptBySubtag s !! scriptName) as [sc|]; simpl.
  - destruct (m_prefix t) as [|p ps] eqn:Hp; simpl; split.
    + discriminate.
    + intros [(H & _) | (t' & sc' & p & ps & Ht & _ & H & _)];
        [discriminate | congruence].
    + intros [= <-]. right. exists t, sc, p, ps. auto.
    + intros [(H & _) | (t' & sc' & p' & ps' & Ht & Hs & H & ->)];
        [discriminate|]. congruence.
  - destruct (at0 (m_prefix t)); simpl; split; try discriminate;
      intros [(H & _) | (t' & sc' & p & ps & _ & H & _)]; discriminate.
  - split; [discriminate|].
    intros [(_ & H & _) | (t' & sc' & p & ps & H & _)]; discriminate.
  - split.
    + intros [= <-]. left. auto.
    + intros [(_ & _ & ->) | (t' & sc' & p & ps & H & _)];
        [reflexivity | discriminate].
Qed.

Lemma extLangTag_return (s : BCP47Languages) (name r : string) :
  extLangTag s name = Returns r
  <-> exists t p ps,
        m_languageBySubtag s !! name = Some t
        /\ m_prefix t = p :: ps
        /\ r = p ++ "-" ++ m_preferredValue t.
Proof.
  unfold extLangTag.
  destruct (m_languageBySubtag s !! name) as [t|]; simpl.
  - destruct (m_prefix t) as [|p ps] eqn:Hp; simpl; split.
    + discriminate.
    + intros (t' & p & ps & [= <-] & H & _). congruence.
    + intros [= <-]. exists t, p, ps. auto.
    + intros (t' & p' & ps' & [= <-] & H & ->). congruence.
  - split; [discriminate|]. intros (t' & p & ps & H & _). discriminate.
Qed.

(** X16: when the builders that can fail do return. [scriptTag] returns
    only when neither name resolves (the empty string) or when both do and
    the language record has a prefix; the tag starts with the first prefix
    of the language record. [extLangTag] returns only for a key of the
    language map whose record has a prefix. *)
Theorem scriptTag_extLangTag_return (s : BCP47Languages)
  (languageName scriptName r : string) :
  (scriptTag s languageName scriptName = Returns r
   <-> (m_languageBySubtag s !! languageName = None
        /\ m_scriptBySubtag s !! scriptName = None /\ r = "")
       \/ (exists t sc p ps,
              m_languageBySubtag s !! languageName = Some t
              /\ m_scriptBySubtag s !! scriptName = Some sc
              /\ m_prefix t = p :: ps
              /\ r = p ++ "-" ++ m_subtag sc ++ "-" ++ m_subtag t))
  /\ (extLangTag s languageName = Returns r
      <-> exists t p ps,
            m_languageBySubtag s !! languageName = Some t
            /\ m_prefix t = p :: ps
            /\ r = p ++ "-" ++ m_preferredValue t).
Proof. split; [apply scriptTag_return | apply extLangTag_return]. Qed.

(** ** The names of the types *)

(** X17: [fromString] reads back the name [typeString] writes, for every
    type; and the [type] values that the parser accepts are the names
    that [fromString] knows, with the same type, letter case aside. *)
Theorem fromString_typeString (l : BCP47Language) (name : string)
  (t : Type_) :
  fromString (typeString l) = m_type l
  /\ (typeOfValue (QString.toLower name) = Some t
      <-> fromString name = t /\ t <> BAD_TAG).
Proof.
  split.
  - unfold typeString. destruct (m_type l); reflexivity.
  - unfold typeOfValue, fromString.
    repeat match goal with
           | |- context [if ?b then _ else _] => destruct b
           end;
      (split;
       [ intros H;
         first [ discriminate
               | injection H as <-; split; [reflexivity | discriminate] ]
       | intros [H1 H2]; congruence ]).
Qed.

(** ** The tokenizer on candidates that are not empty *)

Lemma closeCandidate_tokenOf (s : BCP47Languages) (sub : string) (i : Z)
  (rs : list TagTestResult) :
  closeCandidate s (mkScan sub (Some (setStart i newResult)) rs)
  = Returns (mkScan sub None (rs ++ [tokenOf s i sub])%list).
Proof.
  unfold closeCandidate, tokenOf, classified, accept, reject. simpl.
  repeat match goal with
         | |- context [if ?b then _ else _] => destruct b
         end; reflexivity.
Qed.

Lemma string_length_app (a b : string) :
  QString.length (a ++ b) = QString.length a + QString.length b.
Proof.
  unfold QString.length. induction a as [|x a IH].
  - change (Z.of_nat (String.length b) = 0 + Z.of_nat (String.length b)).
    lia.
  - change (Z.of_nat (S (String.length (a ++ b)))
            = Z.of_nat (S (String.length a)) + Z.of_nat (String.length b)).
    lia.
Qed.

Lemma string_length_cons (x : ascii) (a : string) :
  QString.length (String x a) = 1 + QString.length a.
Proof. unfold QString.length. simpl String.length. lia. Qed.

Lemma string_length_nonneg (a : string) : 0 <= QString.length a.
Proof. unfold QString.length. lia. Qed.

(** One iteration of the loop on a character that is no dash and not the
    last one. *)
Lemma testTagLoop_inside (s : BCP47Languages) (len i : Z) (x : ascii)
  (rest : string) (sub : string) (o : option TagTestResult)
  (rs : list TagTestResult) :
  Ascii.eqb x dash = false -> i + 1 < len ->
  testTagLoop s len i (String x rest) (mkScan sub o rs)
  = testTagLoop s len (i + 1) rest
      (mkScan (QString.push sub x) (resultAfter o i) rs).
Proof.
  intros Hx Hlt. unfold testTagLoop; fold testTagLoop. cbv zeta.
  rewrite Hx.
  assert (H1 : (i + 1 <=? len) = true) by (apply Z.leb_le; lia).
  assert (H2 : (i + 1 =? len) = false) by (apply Z.eqb_neq; lia).
  rewrite H1, H2. reflexivity.
Qed.

(** The iteration on the last character, which is no dash. *)
Lemma testTagLoop_last (s : BCP47Languages) (len i : Z) (x : ascii)
  (sub : string) (o : option TagTestResult) (rs : list TagTestResult) :
  Ascii.eqb x dash = false -> i + 1 = len ->
  testTagLoop s len i (String x "") (mkScan sub o rs)
  = closeCandidate s (mkScan (QString.push sub x) (resultAfter o i) rs).
Proof.
  intros Hx Hlen. unfold testTagLoop. cbv zeta. rewrite Hx.
  assert (H1 : (i + 1 <=? len) = true) by (apply Z.leb_le; lia).
  assert (H2 : (i + 1 =? len) = true) by (apply Z.eqb_eq; lia).
  rewrite H1, H2. simpl.
  destruct (closeCandidate s _); reflexivity.
Qed.

(** The iteration on a dash. *)
Lemma testTagLoop_dash (s : BCP47Languages) (len i : Z) (rest : string)
  (sc : Scan) :
  testTagLoop s len i (String dash rest) sc
  = bindR (closeCandidate s sc) (testTagLoop s len (i + 1) rest).
Proof.
  unfold testTagLoop; fold testTagLoop. cbv zeta.
  change (Ascii.eqb dash dash) with true. reflexivity.
Qed.

Lemma testTagLoop_candidate (s : BCP47Languages) (len : Z) (rest : string)
  (c' : string) :
  rest = "" \/ (exists rest', rest = String dash rest') ->
  QString.contains dash c' = false ->
  forall (x : ascii) (i : Z) (sub : string) (o : option TagTestResult)
         (rs : list TagTestResult),
    Ascii.eqb x dash = false ->
    len = i + 1 + QString.length c' + QString.length rest ->
    testTagLoop s len i (String x c' ++ rest) (mkScan sub o rs)
    = bindR (closeCandidate s
               (mkScan (sub ++ String x c') (resultAfter o i) rs))
        (afterCandidate s len (i + 1 + QString.length c') rest).
Proof.
  intros Hrest. induction c' as [|y c' IH]; intros Hc x i sub o rs Hx Hlen.
  - change (String x "" ++ rest) with (String x rest).
    change (QString.length "") with 0 in *.
    destruct Hrest as [-> | (rest' & ->)].
    + change (QString.length "") with 0 in Hlen.
      rewrite (testTagLoop_last s len i x sub o rs Hx) by lia.
      unfold afterCandidate, QString.push.
      destruct (closeCandidate s _); reflexivity.
    + rewrite string_length_cons in Hlen.
      pose proof (string_length_nonneg rest').
      rewrite (testTagLoop_inside s len i x _ sub o rs Hx) by lia.
      rewrite testTagLoop_dash. unfold afterCandidate, QString.push.
      replace (i + 1 + 0) with (i + 1) by lia. reflexivity.
  - simpl in Hc. apply orb_false_iff in Hc as [Hy Hc].
    rewrite string_length_cons in Hlen.
    pose proof (string_length_nonneg c'). pose proof (string_length_nonneg rest).
    change (String x (String y c') ++ rest)
      with (String x (String y c' ++ rest)).
    rewrite (testTagLoop_inside s len i x _ sub o rs Hx) by lia.
    rewrite (IH Hc y (i + 1) (QString.push sub x) (resultAfter o i) rs Hy)
      by lia.
    rewrite append_push.
    replace (resultAfter (resultAfter o i) (i + 1)) with (resultAfter o i)
      by (destruct o; reflexivity).
    rewrite string_length_cons.
    replace (i + 1 + 1 + QString.length c')
      with (i + 1 + (1 + QString.length c')) by lia.
    reflexivity.
Qed.

Lemma bindR_Returns {A B : Type} (a : A) (k : A -> Result B) :
  bindR (Returns a) k = k a.
Proof. reflexivity. Qed.

Lemma candidateOk_parts (c : string) :
  candidateOk c = true ->
  exists x c', c = String x c' /\ Ascii.eqb x dash = false
               /\ QString.contains dash c' = false
               /\ removeWhitespace c = c.
Proof.
  unfold candidateOk. intros H. apply andb_prop in H as [H H3].
  apply andb_prop in H as [H1 H2]. apply negb_true_iff in H2.
  apply String.eqb_eq in H3. destruct c as [|x c']; [discriminate|].
  simpl in H2. apply orb_false_iff in H2 as [Hx Hc].
  exists x, c'. repeat split; assumption.
Qed.

Lemma testTagLoop_candidates (s : BCP47Languages) (len : Z) (tail : string)
  (cands : list string) :
  tail = "" \/ tail = String dash "" ->
  forall (i : Z) (sub : string) (rs : list TagTestResult),
    cands <> [] ->
    forallb candidateOk cands = true ->
    len = i + QString.length (joinDashes cands ++ tail) ->
    exists sub',
      testTagLoop s len i (joinDashes cands ++ tail) (mkScan sub None rs)
      = Returns (mkScan sub' None (rs ++ tokensOf s i sub cands)%list).
Proof.
  intros Htail. induction cands as [|c cs IH]; intros i sub rs Hne Hok Hlen;
    [congruence|].
  simpl in Hok. apply andb_prop in Hok as [Hc Hcs].
  destruct (candidateOk_parts c Hc) as (x & c' & -> & Hx & Hc' & _).
  destruct cs as [|c2 cs].
  - change (joinDashes [String x c']) with (String x c') in *.
    rewrite string_length_app, string_length_cons in Hlen.
    rewrite (testTagLoop_candidate s len tail c') by
      first [ assumption | lia
            | destruct Htail as [-> | ->]; [left | right]; eauto ].
    change (resultAfter None i) with (Some (setStart i newResult)).
    rewrite closeCandidate_tokenOf, bindR_Returns.
    exists (sub ++ String x c'). unfold afterCandidate.
    destruct Htail as [-> | ->]; reflexivity.
  - change (joinDashes (String x c' :: c2 :: cs))
      with (String x c' ++ String dash (joinDashes (c2 :: cs))) in *.
    rewrite append_string_assoc in *.
    change (String dash (joinDashes (c2 :: cs)) ++ tail)
      with (String dash (joinDashes (c2 :: cs) ++ tail)) in *.
    rewrite string_length_app, !string_length_cons in Hlen.
    rewrite (testTagLoop_candidate s len _ c') by
      first [ assumption | rewrite string_length_cons; lia | right; eauto ].
    change (resultAfter None i) with (Some (setStart i newResult)).
    rewrite closeCandidate_tokenOf, bindR_Returns.
    change (afterCandidate s len (i + 1 + QString.length c')
              (String dash (joinDashes (c2 :: cs) ++ tail)))
      with (testTagLoop s len (i + 1 + QString.length c' + 1)
              (joinDashes (c2 :: cs) ++ tail)).
    destruct (IH (i + 1 + QString.length c' + 1) (sub ++ String x c')
                (rs ++ [tokenOf s i (sub ++ String x c')])%list)
      as (sub' & Hr); [discriminate | exact Hcs | lia |].
    rewrite Hr. exists sub'. rewrite <- app_assoc.
    change (tokensOf s i sub (String x c' :: c2 :: cs))
      with (tokenOf s i (sub ++ String x c')
            :: tokensOf s (i + QString.length (String x c') + 1)
                 (sub ++ String x c') (c2 :: cs)).
    rewrite string_length_cons.
    replace (i + (1 + QString.length c') + 1)
      with (i + 1 + QString.length c' + 1) by lia.
    reflexivity.
Qed.

Lemma removeWhitespace_app (a b : string) :
  removeWhitespace (a ++ b) = removeWhitespace a ++ removeWhitespace b.
Proof.
  induction a as [|x a IH]; [reflexivity|].
  change (removeWhitespace (String x (a ++ b))
          = removeWhitespace (String x a) ++ removeWhitespace b).
  simpl. destruct (QString.isSpace x); rewrite IH; reflexivity.
Qed.

Lemma removeWhitespace_joinDashes (cands : list string) :
  forallb candidateOk cands = true ->
  removeWhitespace (joinDashes cands) = joinDashes cands.
Proof.
  induction cands as [|c cs IH]; [reflexivity|]. simpl forallb.
  intros H. apply andb_prop in H as [Hc Hcs].
  destruct (candidateOk_parts c Hc) as (_ & _ & _ & _ & _ & Hw).
  destruct cs as [|c2 cs]; [exact Hw|].
  change (joinDashes (c :: c2 :: cs))
    with (c ++ String dash (joinDashes (c2 :: cs))).
  rewrite removeWhitespace_app, Hw, removeWhitespace_dash, (IH Hcs).
  reflexivity.
Qed.

(** X18: the tokens of a tag whose candidates are not empty. When the
    tag, which has no whitespace, is made of candidates joined by dashes,
    with or without a dash at its end, [testTag] returns one token for
    each candidate, in order. The token starts where the candidate starts
    in the tag. Its length and its type are those of the text of all the
    candidates up to this one, without the dashes: that text is also its
    text, unless it is a bad subtag, whose text is empty. *)
Theorem testTag_candidates (s : BCP47Languages) (cands : list string) :
  cands <> [] ->
  forallb candidateOk cands = true ->
  testTag s (joinDashes cands) = Returns (tokensOf s 0 "" cands)
  /\ testTag s (joinDashes cands ++ String dash "")
     = Returns (tokensOf s 0 "" cands).
Proof.
  intros Hne Hok. unfold testTag.
  rewrite removeWhitespace_app, (removeWhitespace_joinDashes cands Hok).
  change (removeWhitespace (String dash "")) with (String dash "").
  split.
  - destruct (testTagLoop_candidates s (QString.length (joinDashes cands))
                "" cands (or_introl eq_refl) 0 "" [] Hne Hok)
      as (sub' & Hr).
    { rewrite append_empty_r. lia. }
    rewrite append_empty_r in Hr. rewrite Hr. reflexivity.
  - destruct (testTagLoop_candidates s
                (QString.length (joinDashes cands ++ String dash ""))
                (String dash "") cands (or_intror eq_refl) 0 "" [] Hne Hok)
      as (sub' & Hr); [lia|].
    rewrite Hr. reflexivity.
Qed.

Lemma testTag_candidates_witness :
  testTag Sample.index (joinDashes ["en"; "Latn"; "GB"])
  = Returns (tokensOf Sample.index 0 "" ["en"; "Latn"; "GB"])
  /\ testTag Sample.index (joinDashes ["en"; "Latn"; "GB"] ++ String dash "")
     = Returns (tokensOf Sample.index 0 "" ["en"; "Latn"; "GB"]).
Proof.
  apply (testTag_candidates Sample.index ["en"; "Latn"; "GB"]).
  - discriminate.
  - vm_compute. reflexivity.
Defined.

(** A tag of one candidate gets the token of that candidate. *)
Example tokensOf_sample :
  tokensOf Sample.index 0 "" ["Latn"]
  = [mkResult TagType.SCRIPT_LANGUAGE 0 4 "Latn"]
  /\ tokensOf Sample.index 0 "" ["en"; "Latn"; "GB"]
     = [mkResult TagType.PRIMARY_LANGUAGE 0 2 "en";
        mkResult TagType.BAD_SUBTAG 3 6 "";
        mkResult TagType.BAD_SUBTAG 8 8 ""].
Proof. vm_compute. split; reflexivity. Qed.

(** ** Lines with an unknown name *)



(** ** No file-date error once the date is accepted *)

Lemma step_no_date_error (f : string -> QDate) (c : ascii) (p p' : Parser)
  (n : Z) :
  dateFound p = true -> step f c p = Returns p' ->
  In (n, Error.BAD_FILE_DATE) (errors p') ->
  In (n, Error.BAD_FILE_DATE) (errors p).
Proof.
  intros Hd H Hin.
  break_step H; simpl in *;
    try (rewrite Hd in *; simpl in *; congruence);
    repeat match goal with
           | Hi : In _ (mm_insert _ _ _ _) |- _ =>
               apply mm_insert_elem in Hi as [Hi | Hi];
               [discriminate Hi|]
           end;
    assumption.
Qed.

(** X20: when the first line is accepted as the file date, none of the
    errors that [parse] reports is a [BAD_FILE_DATE] error, whatever the
    rest of the document holds: that error belongs to the lines before the
    date is found. *)
Theorem parse_no_date_error (f : string -> QDate) (d rest : string)
  (out : Parsed) (n : Z) :
  QString.contains newline d = false ->
  QString.startsWithCI "file-date" d = true ->
  List.length (QString.split colon d) = 2%nat ->
  parse f (d ++ String newline rest) = Returns out ->
  ~ In (n, Error.BAD_FILE_DATE) (parsedErrors out).
Proof.
  intros Hn Hs Hc. unfold parse, parseFrom.
  rewrite append_line_feed, run_app, (run_date_line f d Hn Hs Hc).
  simpl. destruct (run f rest _) as [p|] eqn:Hr; simpl; [|discriminate].
  intros [= <-]. simpl. rewrite finish_errors. intros Hin.
  assert (Hinv : dateFound p = true
                 /\ (In (n, Error.BAD_FILE_DATE) (errors p) -> False)).
  { eapply (run_invariant f
              (fun q => dateFound q = true
                        /\ (In (n, Error.BAD_FILE_DATE) (errors q) -> False)));
      [| |exact Hr].
    - intros c q q' [Hq Hno] Hstep. split.
      + apply (step_dateFound f c q q' Hstep Hq).
      + intros Hq'. apply Hno.
        exact (step_no_date_error f c q q' n Hq Hstep Hq').
    - split; [reflexivity | intros []]. }
  destruct Hinv as [_ Hno]. exact (Hno Hin).
Qed.

Lemma parse_no_date_error_witness :
  let out := mkParsed [] (IsoDate.fromString "2021-08-06") false
               [(2, Error.EMPTY_NAME)] in
  parse IsoDate.fromString
    ("File-Date: 2021-08-06" ++ String newline (Sample.lines ["garbage: x"]))
  = Returns out
  /\ ~ In (2, Error.BAD_FILE_DATE) (parsedErrors out).
Proof.
  intros out.
  assert (Hp : parse IsoDate.fromString
                 ("File-Date: 2021-08-06"
                  ++ String newline (Sample.lines ["garbage: x"]))
               = Returns out) by (vm_compute; reflexivity).
  split; [exact Hp|].
  apply (parse_no_date_error IsoDate.fromString "File-Date: 2021-08-06"
           (Sample.lines ["garbage: x"]) out 2);
    [vm_compute; reflexivity .. | exact Hp].
Defined.

(** ** The private-use codes *)

Lemma ascii_compare_code (a b : ascii) :
  Ascii.compare a b = N.compare (QString.code a) (QString.code b).
Proof. reflexivity. Qed.

Lemma leb3_lower (q a b c2 c3 : ascii) :
  (QString.code a <= QString.code c2)%N ->
  (QString.code b <= QString.code c3)%N ->
  String.leb (String q (String a (String b "")))
    (String q (String c2 (String c3 ""))) = true.
Proof.
  intros H2 H3. unfold String.leb. simpl String.compare.
  rewrite !ascii_compare_code, N.compare_refl.
  destruct (N.compare_spec (QString.code a) (QString.code c2)) as [E|E|E];
    [| reflexivity | lia].
  destruct (N.compare_spec (QString.code b) (QString.code c3)) as [E'|E'|E'];
    [reflexivity | reflexivity | lia].
Qed.

Lemma leb3_upper (q a b c2 c3 : ascii) :
  (QString.code c2 <= QString.code a)%N ->
  (QString.code c3 <= QString.code b)%N ->
  String.leb (String q (String c2 (String c3 "")))
    (String q (String a (String b ""))) = true.
Proof.
  intros H2 H3. unfold String.leb. simpl String.compare.
  rewrite !ascii_compare_code, N.compare_refl.
  destruct (N.compare_spec (QString.code c2) (QString.code a)) as [E|E|E];
    [| reflexivity | lia].
  destruct (N.compare_spec (QString.code c3) (QString.code b)) as [E'|E'|E'];
    [reflexivity | reflexivity | lia].
Qed.

(** X21: every three-letter code from [qaa] to [qtz] (second letter [a]
    to [t], third letter [a] to [z]) is a private language, whether or not
    the language map has it: the private-use test comes first. *)
Theorem checkPrimaryLanguage_private_codes (s : BCP47Languages)
  (c2 c3 : ascii) :
  (QString.code "a" <= QString.code c2 <= QString.code "t")%N ->
  (QString.code "a" <= QString.code c3 <= QString.code "z")%N ->
  checkPrimaryLanguage s (String "q" (String c2 (String c3 "")))
  = TagType.PRIVATE_LANGUAGE.
Proof.
  intros [H2 H2'] [H3 H3']. apply checkPrimaryLanguage_private_iff.
  unfold inPrivateLanguageRange, QString.ge, QString.le.
  rewrite (leb3_lower "q" "a" "a" c2 c3 H2 H3).
  rewrite (leb3_upper "q" "t" "z" c2 c3 H2' H3').
  apply orb_true_r.
Qed.

Lemma checkPrimaryLanguage_private_codes_witness :
  checkPrimaryLanguage
    (loadRecords None [setSubtag "qtz" Sample.afar] emptyLanguages) "qtz"
  = TagType.PRIVATE_LANGUAGE.
Proof.
  apply (checkPrimaryLanguage_private_codes _ "t" "z"); vm_compute;
    split; discriminate.
Defined.

(** ** The maps by description after [updateMaps] *)












(** ** The [type] field *)

Lemma endOfLine_type_field (f : string -> QDate) (v : string) (p : Parser) :
  dateFound p = true ->
  line p = fieldLineText "Type" v ->
  valueOk v = true ->
  endOfLine f p
  = applyField f "type" (QString.trimmed v)
      (setLineNumber (m_lineNumber p + 1) p).
Proof.
  intros Hd Hl Hv.
  exact (endOfLine_field f p "Type" v Hd Hl eq_refl eq_refl eq_refl Hv).
Qed.



(** X24: a [type] field with one of the seven type names that comes after
    the file date but before the first separator makes [parse] dereference
    the null record: the parser does not return. *)
Theorem run_type_without_record (f : string -> QDate) (kind : Type_)
  (st : State) (cnt : Z) (m : StringMultiMap BCP47Language)
  (errs : list (Z * Z)) (d : QDate) (ln : Z) (rest : string) :
  kind <> BAD_TAG ->
  run f (fieldLineText "Type" (typeName kind) ++ lineFeed ++ rest)
    (mkParser "" st true None cnt m errs d ln)
  = Aborts.
Proof.
  intros Hk.
  assert (Hok : valueOk (typeName kind) = true)
    by (destruct kind; [congruence | reflexivity ..]).
  rewrite <- append_string_assoc, run_app.
  rewrite (run_line f (fieldLineText "Type" (typeName kind))
             (mkParser "" st true None cnt m errs d ln)
             (fieldLineText_newline "Type" _ eq_refl
                (valueOk_newline _ Hok))
             eq_refl).
  erewrite endOfLine_type_field by first [exact Hok | reflexivity].
  destruct kind; [congruence | reflexivity ..].
Qed.

Lemma run_type_without_record_witness :
  run IsoDate.fromString
    (fieldLineText "Type" (typeName REGION) ++ lineFeed
     ++ Sample.lines ["Subtag: GB"])
    (mkParser "" UNKNOWN true None 0 [] []
       (IsoDate.fromString "2021-08-06") 1)
  = Aborts.
Proof.
  apply (run_type_without_record IsoDate.fromString REGION UNKNOWN 0 [] []
           (IsoDate.fromString "2021-08-06") 1
           (Sample.lines ["Subtag: GB"])).
  discriminate.
Defined.

(** ** The tokenizer returns *)

(** X25: [testTag] returns for every tag that, once its whitespace is
    removed, neither starts with a dash nor has two dashes in a row; a
    dash at the end is allowed. *)
Theorem testTag_returns_without_empty_candidate (s : BCP47Languages)
  (tag : string) :
  noEmptyCandidate true (removeWhitespace tag) = true ->
  exists tokens, testTag s tag = Returns tokens.
Proof.
  intros Hwf. unfold testTag.
  destruct (testTagLoop_returns s (QString.length (removeWhitespace tag))
              (removeWhitespace tag) 0 (mkScan "" None []) true)
    as (sc & ->); [lia | discriminate | exact Hwf |].
  eexists. reflexivity.
Qed.

Lemma testTag_returns_without_empty_candidate_witness :
  exists tokens, testTag Sample.index "zh - Hans - CN -" = Returns tokens.
Proof.
  apply (testTag_returns_without_empty_candidate Sample.index
           "zh - Hans - CN -").
  vm_compute. reflexivity.
Defined.
